(** * Calculator_Pro: the calculator state machine of [src/App.tsx]

    A shallow embedding of the React component's logic.  The component keeps
    one [CalculatorState] in a [useState] cell; every handler reads the
    current state and calls [setState] at most once, so a handler is a
    function from the state before the click to the state after it (a handler
    that returns without calling [setState] is the identity).

    JavaScript values are modelled as the code has them:
    - [string] values are [String.string] (the code only builds display
      strings from ASCII characters; the operator glyphs are UTF-8 encoded);
    - [number] values are IEEE 754 binary64 numbers, taken from the
      specification of floating-point arithmetic in [SpecFloat]
      ([prec = 53], [emax = 1024]), with [NaN], both infinities and both
      zeros;
    - the built-ins the code calls ([String.prototype.includes], [split],
      [parseFloat], [String(number)], [Number.prototype.toLocaleString]) are
      modelled in module [JS], following ECMA-262 and ECMA-402. *)

From Stdlib Require Import ZArith List Bool Lia Ascii String.
From Stdlib Require Import Decimal DecimalString DecimalPos DecimalN.
From Stdlib Require Import SpecFloat.

Import ListNotations.
Local Open Scope string_scope.

(** ** The JavaScript built-ins used by the component *)

Module JS.

(** *** Strings *)

(** [hay.includes(needle)]: [needle] occurs in [hay] as a contiguous
    substring (so the empty string occurs in every string). *)
Fixpoint includes (hay needle : string) : bool :=
  String.prefix needle hay ||
  match hay with
  | EmptyString => false
  | String _ rest => includes rest needle
  end.

(** [s.split(sep)] for a one-character separator: the pieces between the
    occurrences of [sep], in order, as a non-empty array. *)
Fixpoint split (sep : ascii) (s : string) : list string :=
  match s with
  | EmptyString => [EmptyString]
  | String c rest =>
      if Ascii.eqb c sep then EmptyString :: split sep rest
      else match split sep rest with
           | [] => [String c EmptyString]
           | piece :: pieces => String c piece :: pieces
           end
  end.

(** Truthiness of a string: every string but the empty one. *)
Definition truthy (s : string) : bool :=
  match s with EmptyString => false | String _ _ => true end.

(** Number of occurrences of a character in a string. *)
Fixpoint count (c : ascii) (s : string) : nat :=
  match s with
  | EmptyString => 0
  | String d rest => (if Ascii.eqb d c then 1 else 0) + count c rest
  end.

(** *** Numbers: IEEE 754 binary64 *)

Definition Number : Type := spec_float.

Definition prec : Z := 53.
Definition emax : Z := 1024.

Definition NaN : Number := S754_nan.
Definition Infinity : Number := S754_infinity false.
Definition NegInfinity : Number := S754_infinity true.

Definition add : Number -> Number -> Number := SFadd prec emax.
Definition sub : Number -> Number -> Number := SFsub prec emax.
Definition mul : Number -> Number -> Number := SFmul prec emax.
Definition div : Number -> Number -> Number := SFdiv prec emax.

(** [x === 0] on numbers: true for [+0] and [-0], false for everything else
    ([NaN] included). *)
Definition is_zero (x : Number) : bool :=
  match x with S754_zero _ => true | _ => false end.

(** The binary64 number nearest to the rational [num / den] (ties to even),
    with sign [neg]; [0 <= num], [0 < den].  Overflow gives an infinity,
    underflow a zero. *)
Definition of_ratio (neg : bool) (num den : Z) : Number :=
  if (num <=? 0)%Z then S754_zero neg
  else
    let '(mz, ez, lz) := SFdiv_core_binary prec emax num 0 den 0 in
    binary_round_aux prec emax neg mz ez lz.

(** The decimal digits of a natural number, most significant first, as a
    string ([0] is the single digit 0). *)
Definition decimal (z : Z) : string :=
  NilEmpty.string_of_uint (N.to_uint (Z.to_N z)).

(** The binary64 number nearest to [m * 10^e] ([0 <= m]).  Exponents far
    outside the binary64 range are settled without computing the power. *)
Definition of_decimal (neg : bool) (m e : Z) : Number :=
  if (m <=? 0)%Z then S754_zero neg
  else if (400 <? e)%Z then S754_infinity neg
  else if (e + Z.of_nat (String.length (decimal m)) <? -400)%Z then S754_zero neg
  else if (0 <=? e)%Z then of_ratio neg (m * 10 ^ e) 1
  else of_ratio neg m (10 ^ (- e)).

(** *** [parseFloat] *)

Definition digit_val (c : ascii) : option Z :=
  let n := nat_of_ascii c in
  if (48 <=? n)%nat && (n <=? 57)%nat then Some (Z.of_nat (n - 48)) else None.

Definition is_digit (c : ascii) : bool :=
  match digit_val c with Some _ => true | None => false end.

(** Reads the longest run of decimal digits at the head of [s]: the value of
    [acc] followed by those digits, how many were read (added to [n]), and
    the rest of the string. *)
Fixpoint scan_digits (acc : Z) (n : nat) (s : string) : Z * nat * string :=
  match s with
  | EmptyString => (acc, n, s)
  | String c rest =>
      match digit_val c with
      | Some d => scan_digits (acc * 10 + d) (S n) rest
      | None => (acc, n, s)
      end
  end.

(** White space and line terminators of the ASCII range (TAB, LF, VT, FF,
    CR, SP), which [parseFloat] skips at the start of its argument. *)
Definition is_space (c : ascii) : bool :=
  let n := nat_of_ascii c in
  ((9 <=? n)%nat && (n <=? 13)%nat) || (n =? 32)%nat.

Fixpoint trimStart (s : string) : string :=
  match s with
  | String c rest => if is_space c then trimStart rest else s
  | EmptyString => s
  end.

(** The value of an [ExponentPart] at the head of [s], or [0] when [s] does
    not start with one ([e] or [E], an optional sign, at least one digit). *)
Definition scan_exponent (s : string) : Z :=
  match s with
  | String c rest =>
      if Ascii.eqb c "e" || Ascii.eqb c "E" then
        let '(neg, digits) :=
          match rest with
          | String "-" r => (true, r)
          | String "+" r => (false, r)
          | _ => (false, rest)
          end in
        let '(v, n, _) := scan_digits 0 0 digits in
        match n with
        | O => 0%Z
        | S _ => if neg then (- v)%Z else v
        end
      else 0%Z
  | EmptyString => 0%Z
  end.

(** [parseFloat(s)]: the number denoted by the longest prefix of the trimmed
    string that is a [StrDecimalLiteral], or [NaN] when there is none. *)
Definition parseFloat (input : string) : Number :=
  let s := trimStart input in
  let '(neg, body) :=
    match s with
    | String "-" r => (true, r)
    | String "+" r => (false, r)
    | _ => (false, s)
    end in
  if String.prefix "Infinity" body then S754_infinity neg
  else
    let '(ip, ni, after_int) := scan_digits 0 0 body in
    let '(mant, nf, after_frac) :=
      match after_int with
      | String "." r => scan_digits ip 0 r
      | _ => (ip, O, after_int)
      end in
    match (ni + nf)%nat with
    | O => NaN
    | S _ => of_decimal neg mant (scan_exponent after_frac - Z.of_nat nf)
    end.

(** *** [String(x)] for a number [x] (ECMA-262, Number::toString, radix 10) *)

Fixpoint take (n : nat) (s : string) : string :=
  match n, s with
  | S n', String c rest => String c (take n' rest)
  | _, _ => EmptyString
  end.

Fixpoint drop (n : nat) (s : string) : string :=
  match n, s with
  | S n', String _ rest => drop n' rest
  | _, _ => s
  end.

Fixpoint zeros (n : nat) : string :=
  match n with
  | O => EmptyString
  | S n' => String "0" (zeros n')
  end.

(** The exact value of the finite number [m * 2^e] as a fraction. *)
Definition ratio_of (m : positive) (e : Z) : Z * Z :=
  if (0 <=? e)%Z then (Zpos m * 2 ^ e, 1)%Z else (Zpos m, 2 ^ (- e))%Z.

(** The fraction [num / den * 10^p]. *)
Definition scaled (num den p : Z) : Z * Z :=
  if (0 <=? p)%Z then (num * 10 ^ p, den)%Z else (num, den * 10 ^ (- p))%Z.

(** The integer [n] with [10^(n-1) <= num / den < 10^n], for a positive
    fraction. *)
Definition decimal_exponent (num den : Z) : Z :=
  if (den <=? num)%Z then Z.of_nat (String.length (decimal (num / den)))
  else
    let j := Z.of_nat (String.length (decimal (den / num))) in
    if (den <=? num * 10 ^ (j - 1))%Z then (2 - j)%Z else (1 - j)%Z.

(** [c * 10^p] is read back as the number [m * 2^e]. *)
Definition reads_back (m : positive) (e c p : Z) : bool :=
  match of_decimal false c p with
  | S754_finite false m' e' => Pos.eqb m' m && Z.eqb e' e
  | _ => false
  end.

(** The [k]-digit integer [s] for which [s * 10^(n-k)] is read back as the
    number [m * 2^e = num / den], if there is one: the candidates are the
    two [k]-digit decimals around the exact value; when both are read back
    the nearer one is taken (the even one on a tie). *)
Definition digits_at (m : positive) (e num den n k : Z) : option Z :=
  let '(a, b) := scaled num den (k - n) in
  let lo := (a / b)%Z in
  let r := (a mod b)%Z in
  let hi := (lo + 1)%Z in
  let ok_lo := reads_back m e lo (n - k) in
  let ok_hi := negb (r =? 0)%Z && reads_back m e hi (n - k) in
  let nearer_hi :=
    match (2 * r ?= b)%Z with Lt => false | Gt => true | Eq => Z.odd lo end in
  if ok_lo && ok_hi then Some (if nearer_hi then hi else lo)
  else if ok_lo then Some lo
  else if ok_hi then Some hi
  else None.

(** The least [k], starting at [k] and trying [fuel] values, with a
    [k]-digit decimal that is read back as the number; 17 digits always
    suffice for a binary64 number, and the exact value cut to 17 digits
    stands for the case that cannot happen. *)
Fixpoint shortest_from (fuel : nat) (m : positive) (e num den n k : Z) : Z * Z :=
  match fuel with
  | O => let '(a, b) := scaled num den (17 - n) in ((a / b)%Z, 17%Z)
  | S fuel' =>
      match digits_at m e num den n k with
      | Some s => (s, k)
      | None => shortest_from fuel' m e num den n (k + 1)
      end
  end.

(** The digits [s] (as a string of [k] digits) and the exponent [n] of
    Number::toString for the positive finite number [m * 2^e]:
    [s * 10^(n-k)] is the number and [k] is as small as possible. *)
Definition shortest (m : positive) (e : Z) : string * Z :=
  let '(num, den) := ratio_of m e in
  let n := decimal_exponent num den in
  let '(s, k) := shortest_from 17 m e num den n 1 in
  if (s =? 10 ^ k)%Z then (decimal (10 ^ (k - 1)), (n + 1)%Z)
  else (decimal s, n).

(** The layout of Number::toString from the digits and the exponent [n]. *)
Definition layout (ds : string) (n : Z) : string :=
  let k := Z.of_nat (String.length ds) in
  if (k <=? n)%Z && (n <=? 21)%Z then ds ++ zeros (Z.to_nat (n - k))
  else if (0 <? n)%Z && (n <=? 21)%Z then
    take (Z.to_nat n) ds ++ "." ++ drop (Z.to_nat n) ds
  else if (-6 <? n)%Z && (n <=? 0)%Z then "0." ++ zeros (Z.to_nat (- n)) ++ ds
  else
    let ex := (n - 1)%Z in
    let sign := if (ex <? 0)%Z then "-" else "+" in
    match ds with
    | String d (String _ _ as rest) =>
        String d ("." ++ rest) ++ "e" ++ sign ++ decimal (Z.abs ex)
    | _ => ds ++ "e" ++ sign ++ decimal (Z.abs ex)
    end.

Definition minus_sign (neg : bool) : string :=
  if neg then "-" else EmptyString.

(** [String(x)]: the shortest decimal that is read back as [x]. *)
Definition ToString (x : Number) : string :=
  match x with
  | S754_nan => "NaN"
  | S754_zero _ => "0"
  | S754_infinity neg => minus_sign neg ++ "Infinity"
  | S754_finite neg m e =>
      let '(ds, n) := shortest m e in minus_sign neg ++ layout ds n
  end.

(** *** [x.toLocaleString('en-US', { maximumFractionDigits: 0 })]
    (ECMA-402, decimal style, as the engines implement it): the shortest
    decimal that is read back as the number, rounded to an integer, halves
    away from zero, with a comma between groups of three digits; the sign is
    kept on a negative number that rounds to zero.  So a number of 2^53 and
    more is printed with the digits of [String(x)] followed by zeros. *)

Fixpoint group3 (s : string) : string :=
  match s with
  | EmptyString => EmptyString
  | String c rest =>
      String c
        (if (0 <? String.length rest)%nat && (String.length rest mod 3 =? 0)%nat
         then "," ++ group3 rest
         else group3 rest)
  end.

(** The decimal [0.ds * 10^n] (the digits [ds] of Number::toString with
    their exponent [n]) rounded to an integer, halves up. *)
Definition round_decimal (ds : string) (n : Z) : Z :=
  let k := Z.of_nat (String.length ds) in
  let s := fst (fst (scan_digits 0 0 ds)) in
  if (k <=? n)%Z then (s * 10 ^ (n - k))%Z
  else ((2 * s + 10 ^ (k - n)) / (2 * 10 ^ (k - n)))%Z.

Definition toLocaleString (x : Number) : string :=
  match x with
  | S754_nan => "NaN"
  | S754_infinity neg => minus_sign neg ++ "∞"
  | S754_zero neg => minus_sign neg ++ "0"
  | S754_finite neg m e =>
      let '(ds, n) := shortest m e in
      minus_sign neg ++ group3 (decimal (round_decimal ds n))
  end.

End JS.

(** ** The calculator: state, arithmetic and handlers of [src/App.tsx] *)

Module Calculator.

(** Modelled from the spec: the type [Operation] of [./types], which the
    component imports and which is not among the sources.  The spec lists the
    four operators add, subtract, multiply and divide; [calculate] switches
    on their string values ['+'], ['-'], ['×'] and ['÷']. *)
Inductive Operation : Type := Plus | Minus | Times | Divide.

(** The string value of an operation, as interpolated into the history. *)
Definition symbol (op : Operation) : string :=
  match op with
  | Plus => "+"
  | Minus => "-"
  | Times => "×"
  | Divide => "÷"
  end.

(** [label as Operation]: the operation whose string value is [label]. *)
Definition as_Operation (label : string) : option Operation :=
  if String.eqb label "÷" then Some Divide
  else if String.eqb label "×" then Some Times
  else if String.eqb label "-" then Some Minus
  else if String.eqb label "+" then Some Plus
  else None.

(** [interface CalculatorState]. *)
Record CalculatorState : Type := mkState {
  displayValue : string;
  previousValue : option JS.Number;
  operation : option Operation;
  waitingForOperand : bool;
  history : string
}.

Definition initialState : CalculatorState :=
  {| displayValue := "0";
     previousValue := None;
     operation := None;
     waitingForOperand := false;
     history := EmptyString |}.

(** [calculate(val1, val2, op)]. *)
Definition calculate (val1 val2 : JS.Number) (op : Operation) : JS.Number :=
  match op with
  | Plus => JS.add val1 val2
  | Minus => JS.sub val1 val2
  | Times => JS.mul val1 val2
  | Divide => if JS.is_zero val2 then JS.Infinity else JS.div val1 val2
  end.

(** [formatDisplayValue(value)]; [[integer, decimal] = value.split('.')]
    takes the first two pieces, [decimal] being [undefined] (falsy) when
    there is no second piece. *)
Definition formatDisplayValue (value : string) : string :=
  if JS.includes value "Infinity" then "Error"
  else
    match JS.split "." value with
    | integer :: pieces =>
        let formattedInteger := JS.toLocaleString (JS.parseFloat integer) in
        match pieces with
        | decimal :: _ =>
            if JS.truthy decimal then formattedInteger ++ "." ++ decimal
            else formattedInteger
        | [] => formattedInteger
        end
    | [] => JS.toLocaleString JS.NaN
    end.

(** [clearAll]. *)
Definition clearAll (state : CalculatorState) : CalculatorState :=
  initialState.

(** [inputDigit(digit)]. *)
Definition inputDigit (digit : string) (state : CalculatorState)
  : CalculatorState :=
  if waitingForOperand state then
    {| displayValue := digit;
       previousValue := previousValue state;
       operation := operation state;
       waitingForOperand := false;
       history := history state |}
  else if (15 <=? String.length (displayValue state))%nat then state
  else
    {| displayValue :=
         if String.eqb (displayValue state) "0" then digit
         else displayValue state ++ digit;
       previousValue := previousValue state;
       operation := operation state;
       waitingForOperand := waitingForOperand state;
       history := history state |}.

(** [inputDecimal]. *)
Definition inputDecimal (state : CalculatorState) : CalculatorState :=
  if waitingForOperand state then
    {| displayValue := "0.";
       previousValue := previousValue state;
       operation := operation state;
       waitingForOperand := false;
       history := history state |}
  else if negb (JS.includes (displayValue state) ".") then
    {| displayValue := displayValue state ++ ".";
       previousValue := previousValue state;
       operation := operation state;
       waitingForOperand := waitingForOperand state;
       history := history state |}
  else state.

(** [performOperation(nextOperation)]. *)
Definition performOperation (nextOperation : Operation)
  (state : CalculatorState) : CalculatorState :=
  let inputValue := JS.parseFloat (displayValue state) in
  match previousValue state with
  | None =>
      {| displayValue := displayValue state;
         previousValue := Some inputValue;
         operation := Some nextOperation;
         waitingForOperand := true;
         history :=
           formatDisplayValue (displayValue state) ++ " "
           ++ symbol nextOperation |}
  | Some previous =>
      match operation state with
      | Some op =>
          let result := calculate previous inputValue op in
          let resultString := JS.ToString result in
          {| displayValue := resultString;
             previousValue := Some result;
             operation := Some nextOperation;
             waitingForOperand := true;
             history :=
               formatDisplayValue resultString ++ " "
               ++ symbol nextOperation |}
      | None => state
      end
  end.

(** [performEquals]. *)
Definition performEquals (state : CalculatorState) : CalculatorState :=
  let inputValue := JS.parseFloat (displayValue state) in
  match operation state, previousValue state with
  | Some op, Some previous =>
      let result := calculate previous inputValue op in
      let resultString := JS.ToString result in
      {| displayValue := resultString;
         previousValue := previousValue initialState;
         operation := operation initialState;
         waitingForOperand := waitingForOperand initialState;
         history := history initialState |}
  | _, _ => state
  end.

(** [handleButtonClick(label)]: the digit test is the substring test
    ['0123456789'.includes(label)], the operator test is membership in the
    array of the four operator strings. *)
Definition handleButtonClick (label : string) (state : CalculatorState)
  : CalculatorState :=
  if JS.includes "0123456789" label then inputDigit label state
  else if String.eqb label "." then inputDecimal state
  else if String.eqb label "AC" then clearAll state
  else if existsb (String.eqb label) ["÷"; "×"; "-"; "+"] then
    match as_Operation label with
    | Some op => performOperation op state
    | None => state
    end
  else if String.eqb label "=" then performEquals state
  else state.

(** What the component shows for a state: the main line
    [formatDisplayValue(state.displayValue)] and the secondary line
    [state.history]. *)
Definition render (state : CalculatorState) : string * string :=
  (formatDisplayValue (displayValue state), history state).

(** The state after the buttons [labels] are clicked one after the other. *)
Definition clicks (labels : list string) (state : CalculatorState)
  : CalculatorState :=
  fold_left (fun st label => handleButtonClick label st) labels state.

End Calculator.

(** ** The keypad: button styling and the grid of buttons of [src/App.tsx],
    with [CalculatorButton] of [components/CalculatorButton] *)

Module Keypad.

Import Calculator.

(** [getButtonClassName(label, isZero)]. *)
Definition getButtonClassName (label : string) (isZero : bool) : string :=
  if existsb (String.eqb label) ["÷"; "×"; "-"; "+"; "="] then
    "bg-[#FF9500] text-white hover:bg-[#D97706]"
  else if existsb (String.eqb label) ["AC"; "+/-"; "%"] then
    "bg-[#A5A5A5] text-black hover:bg-[#C7C7C7]"
  else if isZero then
    "bg-[#333333] text-white hover:bg-[#555555] col-span-2 !rounded-full text-left pl-7"
  else "bg-[#333333] text-white hover:bg-[#555555]".

(** [interface CalculatorButtonProps]; a handler [(label: string) => void]
    is, like the handlers of the component, a function of the label and of
    the state before the click. *)
Record CalculatorButtonProps : Type := mkButton {
  onClick : string -> CalculatorState -> CalculatorState;
  label : string;
  className : string
}.

(** The handler [() => {}] of the two buttons that are shown disabled. *)
Definition noop (label : string) (state : CalculatorState)
  : CalculatorState := state.

(** [CalculatorButton]: a click on the rendered button calls
    [onClick(label)]. *)
Definition click (button : CalculatorButtonProps) (state : CalculatorState)
  : CalculatorState :=
  onClick button (label button) state.

(** A button of the grid wired to [handleButtonClick]. *)
Definition key (label : string) (isZero : bool) : CalculatorButtonProps :=
  {| onClick := handleButtonClick;
     label := label;
     className := getButtonClassName label isZero |}.

(** A button of the grid wired to [() => {}] and styled as disabled. *)
Definition disabled (label : string) : CalculatorButtonProps :=
  {| onClick := noop;
     label := label;
     className :=
       getButtonClassName label false ++ " opacity-50 cursor-not-allowed" |}.

(** The grid of buttons, row by row. *)
Definition buttons : list CalculatorButtonProps :=
  [ key "AC" false; disabled "+/-"; disabled "%"; key "÷" false;
    key "7" false; key "8" false; key "9" false; key "×" false;
    key "4" false; key "5" false; key "6" false; key "-" false;
    key "1" false; key "2" false; key "3" false; key "+" false;
    key "0" true; key "." false; key "=" false ].

(** The state after the buttons [pressed] are clicked one after the
    other. *)
Definition presses (pressed : list CalculatorButtonProps)
  (state : CalculatorState) : CalculatorState :=
  fold_left (fun st button => click button st) pressed state.

End Keypad.

(** ** Vocabulary of the properties *)

Import Calculator.

(** A nullable field holds a value (is not [null]). *)
Definition present {A : Type} (field : option A) : bool :=
  match field with Some _ => true | None => false end.

(** The pending operand and the pending operator are both present or both
    absent. *)
Definition pending_consistent (s : CalculatorState) : Prop :=
  present (previousValue s) = present (operation s).

(** An operand is awaited only while an operator is pending. *)
Definition awaiting_consistent (s : CalculatorState) : Prop :=
  implb (waitingForOperand s) (present (operation s)) = true.

(** The invariants of the data model on the pending fields. *)
Definition well_formed (s : CalculatorState) : Prop :=
  pending_consistent s /\ awaiting_consistent s.

(** One button label per character of [typed]. *)
Fixpoint labels_of (typed : string) : list string :=
  match typed with
  | EmptyString => []
  | String c rest => String c EmptyString :: labels_of rest
  end.

Fixpoint all_digits (s : string) : bool :=
  match s with
  | EmptyString => true
  | String c rest => JS.is_digit c && all_digits rest
  end.

(** Leading-zero collapsing of a typed digit sequence: the zeros at its head
    are removed, and a sequence with nothing else reads as the single digit
    zero. *)
Fixpoint strip_zeros (s : string) : string :=
  match s with
  | EmptyString => EmptyString
  | String c rest => if Ascii.eqb c "0" then strip_zeros rest else s
  end.

Definition collapse_leading_zeros (s : string) : string :=
  match strip_zeros s with
  | EmptyString => "0"
  | String _ _ as t => t
  end.

(** The second operands [b] for which [calculate Infinity b op] is the
    sentinel [Infinity] again: any number but [NaN] and the opposite infinity
    for a sum or a difference, a positive number for a product, a zero or a
    positive finite number for a quotient. *)
Definition keeps_sentinel (op : Operation) (b : JS.Number) : bool :=
  match op, b with
  | Plus, S754_nan => false
  | Plus, S754_infinity neg => negb neg
  | Plus, _ => true
  | Minus, S754_nan => false
  | Minus, S754_infinity neg => neg
  | Minus, _ => true
  | Times, S754_finite neg _ _ => negb neg
  | Times, S754_infinity neg => negb neg
  | Times, _ => false
  | Divide, S754_zero _ => true
  | Divide, S754_finite neg _ _ => negb neg
  | Divide, _ => false
  end.

(** A state that differs from [initialState] in its display only. *)
Definition showing (display : string) : CalculatorState :=
  {| displayValue := display;
     previousValue := None;
     operation := None;
     waitingForOperand := false;
     history := EmptyString |}.

(** The tokens of the dispatcher: a digit, the decimal point, an operator,
    clear and equals; the label that stands for a token, and the transition
    that belongs to it. *)
Inductive Token : Type :=
  | Digit (c : ascii)
  | DecimalPoint
  | Operator (op : Operation)
  | Clear
  | Equals.

Definition valid_token (t : Token) : bool :=
  match t with
  | Digit c => JS.is_digit c
  | _ => true
  end.

Definition token_label (t : Token) : string :=
  match t with
  | Digit c => String c EmptyString
  | DecimalPoint => "."
  | Operator op => symbol op
  | Clear => "AC"
  | Equals => "="
  end.

Definition transition (t : Token) (s : CalculatorState) : CalculatorState :=
  match t with
  | Digit c => inputDigit (String c EmptyString) s
  | DecimalPoint => inputDecimal s
  | Operator op => performOperation op s
  | Clear => clearAll s
  | Equals => performEquals s
  end.

(** The labels of the recognised tokens: a single digit, the decimal point,
    the four operator symbols, "AC" and "=". *)
Definition recognised (label : string) : bool :=
  existsb (String.eqb label)
    ["0"; "1"; "2"; "3"; "4"; "5"; "6"; "7"; "8"; "9";
     "."; "÷"; "×"; "-"; "+"; "AC"; "="].

(** The state [s] with the display replaced by [display] and no operand
    awaited: the shape of a state while an operand is typed. *)
Definition entering (s : CalculatorState) (display : string)
  : CalculatorState :=
  {| displayValue := display;
     previousValue := previousValue s;
     operation := operation s;
     waitingForOperand := false;
     history := history s |}.

(** The operand a typed digit sequence leaves on the display. *)
Definition typed_operand (typed : string) : string :=
  JS.take 15 (collapse_leading_zeros typed).

(** Every character is a digit or the decimal point. *)
Fixpoint all_entry_keys (s : string) : bool :=
  match s with
  | EmptyString => true
  | String c rest =>
      (JS.is_digit c || Ascii.eqb c ".") && all_entry_keys rest
  end.

(** The secondary line is empty while no operator is pending, and otherwise
    ends with a space and the symbol of the pending operator. *)
Definition history_consistent (s : CalculatorState) : Prop :=
  match operation s with
  | None => history s = EmptyString
  | Some op => exists shown : string, history s = shown ++ " " ++ symbol op
  end.

(** While an operand is awaited, the pending operand is the number on the
    display: the value read from the display, or the number whose string the
    display holds. *)
Definition awaiting_shows_operand (s : CalculatorState) : Prop :=
  waitingForOperand s = true ->
  exists v : JS.Number,
    previousValue s = Some v /\
    (v = JS.parseFloat (displayValue s) \/ displayValue s = JS.ToString v).

(** A number is [NaN]. *)
Definition is_nan (x : JS.Number) : bool :=
  match x with S754_nan => true | _ => false end.

(** The number a string of digits denotes. *)
Definition value_of_digits (d : string) : Z :=
  fst (fst (JS.scan_digits 0 0 d)).

(** The binary64 number nearest to an integer. *)
Definition integer_number (z : Z) : JS.Number :=
  JS.of_decimal (z <? 0)%Z (Z.abs z) 0.

(** The result of an operation on integers, as a calculation with unbounded
    integers gives it (the quotient is not used). *)
Definition integer_result (op : Operation) (x y : Z) : Z :=
  match op with
  | Plus => (x + y)%Z
  | Minus => (x - y)%Z
  | Times => (x * y)%Z
  | Divide => (x / y)%Z
  end.

(** An integer written in decimal digits, with a minus sign when it is
    negative; and the same with a comma between groups of three digits. *)
Definition integer_string (z : Z) : string :=
  JS.minus_sign (z <? 0)%Z ++ JS.decimal (Z.abs z).

Definition grouped_integer (z : Z) : string :=
  JS.minus_sign (z <? 0)%Z ++ JS.group3 (JS.decimal (Z.abs z)).

(** ** Strings: counting, prefixes, digits *)

Section StringFacts.

Variable c : ascii.

Lemma count_app (s t : string) :
  JS.count c (s ++ t) = JS.count c s + JS.count c t.
Proof.
  induction s as [| d s IH]; simpl; [reflexivity |].
  rewrite IH. lia.
Qed.

Lemma count_prefix (p s : string) :
  String.prefix p s = true -> JS.count c p <= JS.count c s.
Proof.
  revert s. induction p as [| d p IH]; intros s H; simpl; [lia |].
  destruct s as [| e s]; simpl in H; [discriminate |].
  destruct (ascii_dec d e) as [-> | Hne]; [| discriminate].
  simpl. specialize (IH s H). lia.
Qed.

Lemma count_includes (hay needle : string) :
  JS.includes hay needle = true -> JS.count c needle <= JS.count c hay.
Proof.
  induction hay as [| d hay IH]; cbn [JS.includes]; intros H.
  - rewrite orb_false_r in H. now apply count_prefix in H.
  - apply orb_true_iff in H. destruct H as [H | H].
    + apply count_prefix in H. exact H.
    + specialize (IH H). simpl. lia.
Qed.

Lemma count_take_drop (n : nat) (s : string) :
  JS.count c (JS.take n s) + JS.count c (JS.drop n s) = JS.count c s.
Proof.
  revert s. induction n as [| n IH]; intros [| d s]; simpl; try reflexivity.
  rewrite <- (IH s). lia.
Qed.

End StringFacts.

(** A one-character string occurs in [s] exactly when its character is
    counted at least once. *)
Lemma includes_char (c : ascii) (s : string) :
  JS.includes s (String c EmptyString) = negb (JS.count c s =? 0)%nat.
Proof.
  induction s as [| d s IH]; [reflexivity |].
  cbn [JS.includes JS.count String.prefix]. rewrite IH.
  destruct (ascii_dec c d) as [-> | Hne].
  - rewrite Ascii.eqb_refl. now destruct s.
  - assert (Ascii.eqb d c = false) as ->
      by (apply Ascii.eqb_neq; congruence).
    reflexivity.
Qed.

Lemma count_zeros (c : ascii) (n : nat) :
  c <> "0"%char -> JS.count c (JS.zeros n) = 0.
Proof.
  intros Hc. induction n as [| n IH]; cbn [JS.count JS.zeros]; [reflexivity |].
  rewrite IH. assert (Ascii.eqb "0" c = false) as ->
    by (apply Ascii.eqb_neq; congruence).
  reflexivity.
Qed.

Lemma count_dot_uint (u : Decimal.uint) :
  JS.count "." (NilEmpty.string_of_uint u) = 0.
Proof. induction u; simpl; auto. Qed.

Lemma count_dot_decimal (z : Z) : JS.count "." (JS.decimal z) = 0.
Proof. apply count_dot_uint. Qed.

Lemma count_dot_digits (s : string) :
  all_digits s = true -> JS.count "." s = 0.
Proof.
  induction s as [| d s IH]; simpl; [reflexivity |].
  intros H. apply andb_true_iff in H. destruct H as [Hd Hs].
  rewrite (IH Hs).
  destruct (Ascii.eqb_spec d "."); [subst d; discriminate | reflexivity].
Qed.

(** The digits of Number::toString hold no decimal point, and its layout
    adds at most one. *)
Lemma count_dot_layout (ds : string) (n : Z) :
  JS.count "." ds = 0 -> JS.count "." (JS.layout ds n) <= 1.
Proof.
  intros Hds. unfold JS.layout.
  destruct (_ && _).
  { rewrite count_app, Hds, count_zeros by discriminate. lia. }
  destruct (_ && _).
  { rewrite !count_app.
    pose proof (count_take_drop "." (Z.to_nat n) ds) as H.
    change (JS.count "." ".") with 1. lia. }
  destruct (_ && _).
  { rewrite !count_app, Hds, count_zeros by discriminate.
    change (JS.count "." "0.") with 1. lia. }
  assert (forall sign : string, JS.count "." sign = 0 ->
            JS.count "." ("e" ++ sign ++ JS.decimal (Z.abs (n - 1))) = 0)
    as Htail.
  { intros sign Hs. rewrite !count_app, Hs, count_dot_decimal. reflexivity. }
  assert (JS.count "." (if (n - 1 <? 0)%Z then "-" else "+") = 0) as Hsign
    by now destruct (n - 1 <? 0)%Z.
  destruct ds as [| d [| d' rest]].
  - rewrite count_app, Htail by exact Hsign. simpl. lia.
  - rewrite count_app, Htail, Hds by exact Hsign. lia.
  - rewrite count_app, Htail by exact Hsign.
    cbn [JS.count] in Hds |- *. rewrite count_app.
    change (JS.count "." ".") with 1.
    cbn [JS.count]. lia.
Qed.

Lemma count_dot_ToString (x : JS.Number) :
  JS.count "." (JS.ToString x) <= 1.
Proof.
  destruct x as [s | [|] | | neg m e];
    [vm_compute; lia | vm_compute; lia | vm_compute; lia | vm_compute; lia |].
  unfold JS.ToString, JS.shortest.
  destruct (JS.ratio_of m e) as [num den].
  destruct (JS.shortest_from _ _ _ _ _ _ _) as [s k].
  assert (JS.count "." (JS.minus_sign neg) = 0) as Hsign by now destruct neg.
  destruct (s =? 10 ^ k)%Z; rewrite count_app, Hsign;
    apply count_dot_layout, count_dot_decimal.
Qed.

(** ** Button labels *)

(** A label that passes the digit test of [handleButtonClick] holds no
    decimal point. *)
Lemma digit_label_no_dot (label : string) :
  JS.includes "0123456789" label = true -> JS.count "." label = 0.
Proof.
  intros H. apply (count_includes ".") in H.
  change (JS.count "." "0123456789") with 0 in H. lia.
Qed.

(** Each of the ten digit characters, as a one-character label, passes the
    digit test. *)
Lemma digit_label_recognised (c : ascii) :
  JS.is_digit c = true ->
  JS.includes "0123456789" (String c EmptyString) = true.
Proof.
  destruct c as [[] [] [] [] [] [] [] []]; intros H;
    solve [reflexivity | discriminate H].
Qed.

Lemma click_digit (c : ascii) (s : CalculatorState) :
  JS.is_digit c = true ->
  handleButtonClick (String c EmptyString) s
  = inputDigit (String c EmptyString) s.
Proof.
  intros H. unfold handleButtonClick.
  now rewrite (digit_label_recognised c H).
Qed.

Lemma click_decimal (s : CalculatorState) :
  handleButtonClick "." s = inputDecimal s.
Proof. reflexivity. Qed.

Lemma click_clear (s : CalculatorState) :
  handleButtonClick "AC" s = clearAll s.
Proof. reflexivity. Qed.

Lemma click_operator (op : Operation) (s : CalculatorState) :
  handleButtonClick (symbol op) s = performOperation op s.
Proof. destruct op; reflexivity. Qed.

Lemma click_equals (s : CalculatorState) :
  handleButtonClick "=" s = performEquals s.
Proof. reflexivity. Qed.

Lemma clicks_cons (label : string) (labels : list string)
  (s : CalculatorState) :
  clicks (label :: labels) s = clicks labels (handleButtonClick label s).
Proof. reflexivity. Qed.

(** A property that each of the five transitions preserves is preserved by
    a click on any label. *)
Lemma click_preserves (P : CalculatorState -> Prop) :
  (forall digit s, JS.includes "0123456789" digit = true ->
                   P s -> P (inputDigit digit s)) ->
  (forall s, P s -> P (inputDecimal s)) ->
  (forall s, P s -> P (clearAll s)) ->
  (forall op s, P s -> P (performOperation op s)) ->
  (forall s, P s -> P (performEquals s)) ->
  forall label s, P s -> P (handleButtonClick label s).
Proof.
  intros Hdigit Hdecimal Hclear Hop Hequals label s Hs.
  unfold handleButtonClick.
  destruct (JS.includes "0123456789" label) eqn:D; [now apply Hdigit |].
  destruct (label =? "."); [now apply Hdecimal |].
  destruct (label =? "AC"); [now apply Hclear |].
  destruct (existsb _ _).
  { destruct (as_Operation label); [now apply Hop | exact Hs]. }
  destruct (label =? "="); [now apply Hequals | exact Hs].
Qed.

(** A property that holds of a state and that every click preserves holds
    after any sequence of clicks. *)
Lemma clicks_invariant (P : CalculatorState -> Prop) :
  (forall label s, P s -> P (handleButtonClick label s)) ->
  forall labels s, P s -> P (clicks labels s).
Proof.
  intros Hstep labels. induction labels as [| l labels IH]; intros s Hs.
  - exact Hs.
  - apply IH, Hstep, Hs.
Qed.

(** ** At most one decimal point *)

Lemma inputDigit_dots (digit : string) (s : CalculatorState) :
  JS.includes "0123456789" digit = true ->
  JS.count "." (displayValue s) <= 1 ->
  JS.count "." (displayValue (inputDigit digit s)) <= 1.
Proof.
  intros Hd Hs. apply digit_label_no_dot in Hd. unfold inputDigit.
  destruct (waitingForOperand s); cbn [displayValue]; [lia |].
  destruct (15 <=? _)%nat; cbn [displayValue]; [exact Hs |].
  destruct (displayValue s =? "0"); [lia |].
  rewrite count_app. lia.
Qed.

Lemma inputDecimal_dots (s : CalculatorState) :
  JS.count "." (displayValue s) <= 1 ->
  JS.count "." (displayValue (inputDecimal s)) <= 1.
Proof.
  intros Hs. unfold inputDecimal.
  destruct (waitingForOperand s); cbn [displayValue];
    [change (JS.count "." "0.") with 1; lia |].
  rewrite includes_char, negb_involutive.
  destruct (Nat.eqb_spec (JS.count "." (displayValue s)) 0) as [H0 | _];
    cbn [displayValue]; [| exact Hs].
  rewrite count_app, H0. change (JS.count "." ".") with 1. lia.
Qed.

Lemma performOperation_dots (op : Operation) (s : CalculatorState) :
  JS.count "." (displayValue s) <= 1 ->
  JS.count "." (displayValue (performOperation op s)) <= 1.
Proof.
  intros Hs. unfold performOperation.
  destruct (previousValue s); [| exact Hs].
  destruct (operation s); [apply count_dot_ToString | exact Hs].
Qed.

Lemma performEquals_dots (s : CalculatorState) :
  JS.count "." (displayValue s) <= 1 ->
  JS.count "." (displayValue (performEquals s)) <= 1.
Proof.
  intros Hs. unfold performEquals.
  destruct (operation s); [| exact Hs].
  destruct (previousValue s); [apply count_dot_ToString | exact Hs].
Qed.

Lemma click_dots (label : string) (s : CalculatorState) :
  JS.count "." (displayValue s) <= 1 ->
  JS.count "." (displayValue (handleButtonClick label s)) <= 1.
Proof.
  apply (click_preserves (fun s => JS.count "." (displayValue s) <= 1)).
  - apply inputDigit_dots.
  - apply inputDecimal_dots.
  - intros; vm_compute; lia.
  - apply performOperation_dots.
  - apply performEquals_dots.
Qed.

(** After [inputDecimal] no operand is awaited and the display holds a
    decimal point. *)
Lemma inputDecimal_settled (s : CalculatorState) :
  waitingForOperand (inputDecimal s) = false /\
  JS.includes (displayValue (inputDecimal s)) "." = true.
Proof.
  unfold inputDecimal.
  destruct (waitingForOperand s) eqn:W; [split; reflexivity |].
  destruct (JS.includes (displayValue s) ".") eqn:I; cbn [negb].
  - now rewrite W, I.
  - cbn [waitingForOperand displayValue]. split; [reflexivity |].
    rewrite includes_char, count_app.
    change (JS.count "." ".") with 1.
    now rewrite Nat.add_1_r.
Qed.

Lemma inputDecimal_fixed (s : CalculatorState) :
  waitingForOperand s = false ->
  JS.includes (displayValue s) "." = true ->
  inputDecimal s = s.
Proof. intros W I. unfold inputDecimal. now rewrite W, I. Qed.

(** ** Operand and operator go together *)

Lemma inputDigit_pending (digit : string) (s : CalculatorState) :
  pending_consistent s -> pending_consistent (inputDigit digit s).
Proof.
  unfold inputDigit.
  destruct (waitingForOperand s); [trivial |].
  destruct (15 <=? _)%nat; trivial.
Qed.

Lemma inputDecimal_pending (s : CalculatorState) :
  pending_consistent s -> pending_consistent (inputDecimal s).
Proof.
  unfold inputDecimal.
  destruct (waitingForOperand s); [trivial |].
  destruct (negb _); trivial.
Qed.

Lemma clearAll_pending (s : CalculatorState) :
  pending_consistent (clearAll s).
Proof. reflexivity. Qed.

Lemma performOperation_pending (op : Operation) (s : CalculatorState) :
  pending_consistent s -> pending_consistent (performOperation op s).
Proof.
  intros Hs. unfold performOperation.
  destruct (previousValue s); [destruct (operation s) |];
    solve [exact Hs | reflexivity].
Qed.

Lemma performEquals_pending (s : CalculatorState) :
  pending_consistent s -> pending_consistent (performEquals s).
Proof.
  intros Hs. unfold performEquals.
  destruct (operation s); [destruct (previousValue s) |];
    solve [exact Hs | reflexivity].
Qed.

Lemma click_pending (label : string) (s : CalculatorState) :
  pending_consistent s -> pending_consistent (handleButtonClick label s).
Proof.
  apply (click_preserves pending_consistent).
  - intros digit s0 _. apply inputDigit_pending.
  - apply inputDecimal_pending.
  - intros s0 _. apply clearAll_pending.
  - apply performOperation_pending.
  - apply performEquals_pending.
Qed.

Lemma click_awaiting (label : string) (s : CalculatorState) :
  awaiting_consistent s -> awaiting_consistent (handleButtonClick label s).
Proof.
  apply (click_preserves awaiting_consistent); unfold awaiting_consistent.
  - intros digit s0 _ H. unfold inputDigit.
    destruct (waitingForOperand s0) eqn:W; [reflexivity |].
    destruct (15 <=? _)%nat; cbn; now rewrite ?W.
  - intros s0 H. unfold inputDecimal.
    destruct (waitingForOperand s0) eqn:W; [reflexivity |].
    destruct (negb _); cbn; now rewrite ?W.
  - reflexivity.
  - intros op s0. unfold performOperation.
    destruct (previousValue s0); [destruct (operation s0) eqn:O |];
      solve [reflexivity | now rewrite O].
  - intros s0. unfold performEquals.
    destruct (operation s0) eqn:O; [destruct (previousValue s0) |];
      solve [reflexivity | now rewrite O].
Qed.

Lemma click_well_formed (label : string) (s : CalculatorState) :
  well_formed s -> well_formed (handleButtonClick label s).
Proof.
  intros [Hp Hw]. split; [now apply click_pending | now apply click_awaiting].
Qed.

Lemma initial_well_formed : well_formed initialState.
Proof. split; reflexivity. Qed.

Lemma reachable_well_formed (labels : list string) :
  well_formed (clicks labels initialState).
Proof.
  apply (clicks_invariant well_formed).
  - exact click_well_formed.
  - exact initial_well_formed.
Qed.

(** ** Typing digits *)

Lemma append_assoc (s t u : string) : (s ++ t) ++ u = s ++ (t ++ u).
Proof. induction s as [| c s IH]; simpl; [reflexivity | now rewrite IH]. Qed.

Lemma append_empty_r (s : string) : s ++ EmptyString = s.
Proof. induction s as [| c s IH]; simpl; [reflexivity | now rewrite IH]. Qed.

Lemma length_append (s t : string) :
  String.length (s ++ t) = String.length s + String.length t.
Proof. induction s as [| c s IH]; simpl; [reflexivity | now rewrite IH]. Qed.

Lemma take_all (n : nat) (s : string) :
  String.length s <= n -> JS.take n s = s.
Proof.
  revert s. induction n as [| n IH]; intros [| c s] H; simpl in *;
    try reflexivity; try lia.
  rewrite IH by lia. reflexivity.
Qed.

Lemma take_app_full (s t : string) :
  JS.take (String.length s) (s ++ t) = s.
Proof. induction s as [| c s IH]; simpl; [now destruct t | now rewrite IH]. Qed.

Lemma inputDigit_showing (digit d : string) :
  inputDigit digit (showing d)
  = if (15 <=? String.length d)%nat then showing d
    else showing (if d =? "0" then digit else d ++ digit).
Proof.
  unfold inputDigit. cbn [waitingForOperand displayValue showing].
  now destruct (15 <=? String.length d)%nat.
Qed.

(** Typing digits after a display that is not the single zero: the digits
    are appended until the display is 15 characters long. *)
Lemma typing_appends (typed d : string) :
  all_digits typed = true ->
  1 <= String.length d <= 15 -> d <> "0" ->
  clicks (labels_of typed) (showing d) = showing (JS.take 15 (d ++ typed)).
Proof.
  revert d. induction typed as [| c typed IH]; intros d Hall Hlen Hd.
  - cbn [labels_of clicks fold_left]. rewrite append_empty_r.
    f_equal. symmetry. apply take_all. lia.
  - cbn [all_digits] in Hall.
    apply andb_true_iff in Hall. destruct Hall as [Hc Hall].
    cbn [labels_of]. rewrite clicks_cons, (click_digit c _ Hc).
    rewrite inputDigit_showing.
    destruct (Nat.leb_spec 15 (String.length d)) as [Hfull | Hroom].
    + assert (String.length d = 15) as L by lia.
      rewrite (IH d Hall Hlen Hd). f_equal.
      rewrite <- L, !take_app_full. reflexivity.
    + destruct (String.eqb_spec d "0") as [-> | _]; [congruence |].
      rewrite (IH (d ++ String c EmptyString) Hall).
      * now rewrite append_assoc.
      * rewrite length_append. cbn [String.length]. lia.
      * intros E. apply (f_equal String.length) in E.
        rewrite length_append in E. cbn [String.length] in E. lia.
Qed.

(** Typing digits into a display that shows the single zero. *)
Lemma typing_from_zero (typed : string) :
  all_digits typed = true ->
  clicks (labels_of typed) (showing "0")
  = showing (JS.take 15 (collapse_leading_zeros typed)).
Proof.
  induction typed as [| c typed IH]; intros Hall; [reflexivity |].
  cbn [all_digits] in Hall.
  apply andb_true_iff in Hall. destruct Hall as [Hc Hall].
  cbn [labels_of]. rewrite clicks_cons, (click_digit c _ Hc).
  rewrite inputDigit_showing.
  change (15 <=? String.length "0")%nat with false.
  change ("0" =? "0") with true. cbv iota.
  unfold collapse_leading_zeros. cbn [strip_zeros].
  destruct (Ascii.eqb_spec c "0") as [-> | Hne].
  - apply (IH Hall).
  - rewrite (typing_appends typed (String c EmptyString) Hall);
      [reflexivity | cbn [String.length]; lia | congruence].
Qed.

(** ** The properties of the specification *)

(** C1. Clicking 5, +, 3, ×, 2, = from the initial state ends with the main
    display "16": when × is clicked the pending 5 + 3 is resolved to 8, which
    becomes the display and the pending operand with × pending, and =
    then computes 8 × 2. *)
Theorem chaining_resolves_left_to_right :
  clicks ["5"; "+"; "3"] initialState
  = {| displayValue := "3";
       previousValue := Some (JS.parseFloat "5");
       operation := Some Plus;
       waitingForOperand := false;
       history := "5 +" |} /\
  clicks ["5"; "+"; "3"; "×"] initialState
  = {| displayValue := "8";
       previousValue := Some (JS.parseFloat "8");
       operation := Some Times;
       waitingForOperand := true;
       history := "8 ×" |} /\
  displayValue (clicks ["5"; "+"; "3"; "×"; "2"; "="] initialState) = "16" /\
  render (clicks ["5"; "+"; "3"; "×"; "2"; "="] initialState)
  = ("16", EmptyString).
Proof. vm_compute. repeat split. Qed.

(** C2. For every number [a], dividing by a second operand that is zero
    returns the sentinel [Infinity] (no exception: [calculate] is total), and
    a state whose display holds the string of that result is rendered as the
    error marker "Error". *)
Theorem division_by_zero_gives_the_sentinel
  (a b : JS.Number) (s : CalculatorState) :
  JS.is_zero b = true ->
  displayValue s = JS.ToString (calculate a b Divide) ->
  calculate a b Divide = JS.Infinity /\
  displayValue s = "Infinity" /\
  fst (render s) = "Error".
Proof.
  intros Hb Hs. unfold calculate in *. rewrite Hb in *.
  split; [reflexivity |]. split; [exact Hs |].
  unfold render. cbn [fst]. rewrite Hs. reflexivity.
Qed.

Lemma division_by_zero_gives_the_sentinel_witness :
  JS.is_zero (JS.parseFloat "0") = true /\
  displayValue (clicks ["9"; "÷"; "0"; "="] initialState)
  = JS.ToString (calculate (JS.parseFloat "9") (JS.parseFloat "0") Divide) /\
  calculate (JS.parseFloat "9") (JS.parseFloat "0") Divide = JS.Infinity /\
  displayValue (clicks ["9"; "÷"; "0"; "="] initialState) = "Infinity" /\
  fst (render (clicks ["9"; "÷"; "0"; "="] initialState)) = "Error".
Proof.
  split; [reflexivity |]. split; [reflexivity |].
  apply (division_by_zero_gives_the_sentinel
           (JS.parseFloat "9") (JS.parseFloat "0")
           (clicks ["9"; "÷"; "0"; "="] initialState));
    reflexivity.
Defined.

(** C3, as stated, fails: the sentinel times zero is [NaN], not the
    sentinel, and after 1 ÷ 0 × 0 = the display holds "NaN" and is rendered
    as "NaN", not as the error marker. *)
Lemma sentinel_times_zero_is_not_the_sentinel :
  calculate JS.Infinity (JS.parseFloat "0") Times = JS.NaN /\
  calculate JS.Infinity (JS.parseFloat "0") Times <> JS.Infinity /\
  previousValue (clicks ["1"; "÷"; "0"; "×"; "0"] initialState)
  = Some JS.Infinity /\
  render (clicks ["1"; "÷"; "0"; "×"; "0"; "="] initialState)
  = ("NaN", EmptyString) /\
  fst (render (clicks ["1"; "÷"; "0"; "×"; "0"; "="] initialState))
  <> "Error".
Proof. vm_compute. repeat split; discriminate. Qed.

(** C3, amended.  [calculate Infinity b op] is the sentinel again exactly for
    the second operands of [keeps_sentinel]: for + and −, every [b] but [NaN]
    and the infinity that cancels it; for ×, every [b] greater than zero; for
    ÷, the zeros and every finite [b] greater than zero.  For such a [b] the
    chained operator step keeps the sentinel as pending operand and the
    display is rendered as the error marker. *)
Theorem sentinel_propagates_exactly_when (op : Operation) (b : JS.Number) :
  (calculate JS.Infinity b op = JS.Infinity <-> keeps_sentinel op b = true) /\
  (keeps_sentinel op b = true ->
   forall (next : Operation) (s : CalculatorState),
     previousValue s = Some JS.Infinity ->
     operation s = Some op ->
     JS.parseFloat (displayValue s) = b ->
     previousValue (performOperation next s) = Some JS.Infinity /\
     displayValue (performOperation next s) = "Infinity" /\
     fst (render (performOperation next s)) = "Error").
Proof.
  assert (calculate JS.Infinity b op = JS.Infinity
          <-> keeps_sentinel op b = true) as Hiff.
  { destruct op, b as [[] | [] | | [] m e]; cbn;
      split; intros H; solve [reflexivity | discriminate H]. }
  split; [exact Hiff |].
  intros Hk next s Hp Ho Hb. apply Hiff in Hk.
  unfold render, performOperation. rewrite Hp, Ho, Hb, Hk.
  repeat split.
Qed.

Lemma sentinel_propagates_exactly_when_witness :
  keeps_sentinel Plus (JS.parseFloat "5") = true /\
  previousValue (clicks ["1"; "÷"; "0"; "+"; "5"] initialState)
  = Some JS.Infinity /\
  operation (clicks ["1"; "÷"; "0"; "+"; "5"] initialState) = Some Plus /\
  calculate JS.Infinity (JS.parseFloat "5") Plus = JS.Infinity /\
  fst (render (performOperation Times
                 (clicks ["1"; "÷"; "0"; "+"; "5"] initialState)))
  = "Error".
Proof.
  split; [reflexivity |]. split; [reflexivity |]. split; [reflexivity |].
  split.
  - apply (proj1 (sentinel_propagates_exactly_when Plus (JS.parseFloat "5"))).
    reflexivity.
  - apply (proj2 (sentinel_propagates_exactly_when Plus (JS.parseFloat "5"))
             eq_refl Times
             (clicks ["1"; "÷"; "0"; "+"; "5"] initialState));
      reflexivity.
Defined.

(** C4, as stated, fails: after 5 and +, an operand is awaited and + is
    pending; clicking × then leaves × pending, not +. *)
Lemma second_operator_replaces_the_first :
  waitingForOperand (clicks ["5"; "+"] initialState) = true /\
  operation (clicks ["5"; "+"] initialState) = Some Plus /\
  operation (handleButtonClick "×" (clicks ["5"; "+"] initialState))
  = Some Times /\
  operation (handleButtonClick "×" (clicks ["5"; "+"] initialState))
  <> operation (clicks ["5"; "+"] initialState).
Proof. vm_compute. repeat split; discriminate. Qed.

(** C4, amended.  In a state that awaits an operand (with the invariants of
    the data model, which every reachable state has), an operand and an
    operator are pending, and clicking a second operator resolves the pending
    operation with the displayed value as its second operand, shows the
    result, and makes the clicked operator the pending one. *)
Theorem second_operator_resolves_and_replaces
  (next : Operation) (s : CalculatorState) :
  well_formed s ->
  waitingForOperand s = true ->
  exists (previous : JS.Number) (op : Operation),
    previousValue s = Some previous /\
    operation s = Some op /\
    handleButtonClick (symbol next) s
    = let result :=
        calculate previous (JS.parseFloat (displayValue s)) op in
      {| displayValue := JS.ToString result;
         previousValue := Some result;
         operation := Some next;
         waitingForOperand := true;
         history :=
           formatDisplayValue (JS.ToString result) ++ " " ++ symbol next |}.
Proof.
  unfold well_formed, pending_consistent, awaiting_consistent.
  intros [Hp Hw] W. rewrite W in Hw.
  destruct (operation s) as [op |] eqn:O; [| discriminate Hw].
  destruct (previousValue s) as [previous |] eqn:P; [| discriminate Hp].
  exists previous, op. repeat split.
  rewrite click_operator. unfold performOperation. now rewrite P, O.
Qed.

Lemma second_operator_resolves_and_replaces_witness :
  well_formed (clicks ["5"; "+"] initialState) /\
  waitingForOperand (clicks ["5"; "+"] initialState) = true /\
  exists (previous : JS.Number) (op : Operation),
    previousValue (clicks ["5"; "+"] initialState) = Some previous /\
    operation (clicks ["5"; "+"] initialState) = Some op /\
    handleButtonClick (symbol Times) (clicks ["5"; "+"] initialState)
    = let result :=
        calculate previous
          (JS.parseFloat (displayValue (clicks ["5"; "+"] initialState))) op in
      {| displayValue := JS.ToString result;
         previousValue := Some result;
         operation := Some Times;
         waitingForOperand := true;
         history :=
           formatDisplayValue (JS.ToString result) ++ " " ++ symbol Times |}.
Proof.
  assert (well_formed (clicks ["5"; "+"] initialState)) as Hwf
    by (split; reflexivity).
  split; [exact Hwf |]. split; [reflexivity |].
  apply (second_operator_resolves_and_replaces Times
           (clicks ["5"; "+"] initialState) Hwf).
  reflexivity.
Defined.

(** The digit test of [handleButtonClick] is a substring test on
    "0123456789": a run of several consecutive digits and the empty label,
    which no button of the keypad carries, are passed to [inputDigit]. *)
Lemma runs_of_digits_pass_the_digit_test :
  handleButtonClick "12" initialState = showing "12" /\
  handleButtonClick EmptyString initialState = showing EmptyString.
Proof. split; reflexivity. Qed.



(** The labels of the tokens of the dispatcher are the recognised labels. *)
Lemma recognised_labels (label : string) :
  recognised label = true <->
  exists t : Token, valid_token t = true /\ token_label t = label.
Proof.
  split.
  - intros H. apply existsb_exists in H as [l [Hin Hl]].
    apply String.eqb_eq in Hl. subst l. cbn [In] in Hin.
    repeat (destruct Hin as [<- | Hin];
            [first [ now exists (Digit "0") | now exists (Digit "1")
                   | now exists (Digit "2") | now exists (Digit "3")
                   | now exists (Digit "4") | now exists (Digit "5")
                   | now exists (Digit "6") | now exists (Digit "7")
                   | now exists (Digit "8") | now exists (Digit "9")
                   | now exists DecimalPoint
                   | now exists (Operator Divide)
                   | now exists (Operator Times)
                   | now exists (Operator Minus)
                   | now exists (Operator Plus)
                   | now exists Clear | now exists Equals ] |]).
    destruct Hin.
  - intros [t [Hv <-]]. destruct t as [c | | op | |];
      cbn [valid_token token_label] in *;
      [| reflexivity | now destruct op | reflexivity | reflexivity].
    revert Hv. destruct c as [[] [] [] [] [] [] [] []]; vm_compute; congruence.
Qed.





(** C6.  After any sequence of clicks from the initial state the display
    holds at most one decimal point; and in any state, clicking the decimal
    point any number of times in a row does what a single click does. *)
Theorem at_most_one_decimal_point :
  (forall labels : list string,
     JS.count "." (displayValue (clicks labels initialState)) <= 1) /\
  (forall (n : nat) (s : CalculatorState),
     clicks (repeat "." (S n)) s = handleButtonClick "." s).
Proof.
  split.
  - intros labels.
    apply (clicks_invariant (fun s => JS.count "." (displayValue s) <= 1)).
    + exact click_dots.
    + vm_compute. lia.
  - intros n. induction n as [| n IH]; intros s; [reflexivity |].
    change (repeat "." (S (S n))) with ("." :: repeat "." (S n))%list.
    rewrite clicks_cons, IH, !click_decimal.
    apply inputDecimal_fixed; apply inputDecimal_settled.
Qed.

(** C7.  After any sequence of clicks from the initial state the pending
    operand and the pending operator are both present or both absent, and
    each transition (digit, decimal point, operator, equals, clear, and so a
    click on any label) preserves this. *)
Theorem operand_and_operator_go_together :
  (forall labels : list string,
     pending_consistent (clicks labels initialState)) /\
  (forall s : CalculatorState,
     pending_consistent s ->
     (forall digit, pending_consistent (inputDigit digit s)) /\
     pending_consistent (inputDecimal s) /\
     (forall op, pending_consistent (performOperation op s)) /\
     pending_consistent (performEquals s) /\
     pending_consistent (clearAll s) /\
     (forall label, pending_consistent (handleButtonClick label s))).
Proof.
  split.
  - intros labels. apply (clicks_invariant pending_consistent).
    + exact click_pending.
    + apply (clearAll_pending initialState).
  - intros s Hs.
    split; [intros digit; now apply inputDigit_pending |].
    split; [now apply inputDecimal_pending |].
    split; [intros op; now apply performOperation_pending |].
    split; [now apply performEquals_pending |].
    split; [apply clearAll_pending |].
    intros label. now apply click_pending.
Qed.

Lemma operand_and_operator_go_together_witness :
  pending_consistent (clicks ["7"; "-"; "2"] initialState) /\
  pending_consistent (performEquals (clicks ["7"; "-"; "2"] initialState)).
Proof.
  pose proof operand_and_operator_go_together as [Hreach Hstep].
  split; [apply Hreach |].
  apply (Hstep (clicks ["7"; "-"; "2"] initialState) (Hreach _)).
Defined.

(** C8, as stated, fails: of sixteen digits typed into the initial state the
    last one is dropped, so the display is not the typed sequence. *)
Lemma sixteenth_digit_is_dropped :
  all_digits "1111111111111111" = true /\
  collapse_leading_zeros "1111111111111111" = "1111111111111111" /\
  displayValue (clicks (labels_of "1111111111111111") initialState)
  = "111111111111111" /\
  displayValue (clicks (labels_of "1111111111111111") initialState)
  <> collapse_leading_zeros "1111111111111111".
Proof. vm_compute. repeat split; discriminate. Qed.

(** C8, amended.  For every sequence of digits typed into the initial state
    the display is the typed sequence with its leading zeros collapsed, cut
    to its first 15 characters; so it is the collapsed sequence itself
    whenever that is at most 15 characters long (0 then 5 shows "5"). *)
Theorem typed_digits_collapse_zeros_up_to_15 (typed : string) :
  all_digits typed = true ->
  displayValue (clicks (labels_of typed) initialState)
  = JS.take 15 (collapse_leading_zeros typed) /\
  (String.length (collapse_leading_zeros typed) <= 15 ->
   displayValue (clicks (labels_of typed) initialState)
   = collapse_leading_zeros typed).
Proof.
  intros Hall.
  assert (displayValue (clicks (labels_of typed) initialState)
          = JS.take 15 (collapse_leading_zeros typed)) as H.
  { change initialState with (showing "0").
    now rewrite (typing_from_zero typed Hall). }
  split; [exact H |].
  intros Hlen. rewrite H. now apply take_all.
Qed.

Lemma typed_digits_collapse_zeros_up_to_15_witness :
  all_digits "05" = true /\
  displayValue (clicks ["0"; "5"] initialState) = "5".
Proof.
  split; [reflexivity |].
  apply (proj2 (typed_digits_collapse_zeros_up_to_15 "05" eq_refl)).
  vm_compute. lia.
Defined.

(** Equals after equals changes nothing, in every state. *)
Lemma performEquals_idempotent (s : CalculatorState) :
  performEquals (performEquals s) = performEquals s.
Proof.
  unfold performEquals at 2 3.
  destruct (operation s) eqn:O; [destruct (previousValue s) eqn:P |].
  - reflexivity.
  - unfold performEquals. now rewrite O, P.
  - unfold performEquals. now rewrite O.
Qed.

(** C9.  In every state whose pending operand and operator go together (so
    in every reachable state), after a click on = no operator is pending, and
    a second click on = right after it is a no-op: the state, and with it
    the display, is the one after the first click. *)
Theorem equals_twice_is_equals_once (s : CalculatorState) :
  pending_consistent s ->
  operation (handleButtonClick "=" s) = None /\
  handleButtonClick "=" (handleButtonClick "=" s) = handleButtonClick "=" s /\
  render (handleButtonClick "=" (handleButtonClick "=" s))
  = render (handleButtonClick "=" s).
Proof.
  unfold pending_consistent. intros Hp.
  rewrite !click_equals, performEquals_idempotent.
  split; [| split; reflexivity].
  unfold performEquals.
  destruct (operation s) eqn:O; [| exact O].
  destruct (previousValue s) eqn:P; [reflexivity | discriminate Hp].
Qed.

Lemma equals_twice_is_equals_once_witness :
  pending_consistent (clicks ["5"; "+"; "3"] initialState) /\
  operation (handleButtonClick "=" (clicks ["5"; "+"; "3"] initialState))
  = None /\
  handleButtonClick "="
    (handleButtonClick "=" (clicks ["5"; "+"; "3"] initialState))
  = handleButtonClick "=" (clicks ["5"; "+"; "3"] initialState) /\
  render (handleButtonClick "="
            (handleButtonClick "=" (clicks ["5"; "+"; "3"] initialState)))
  = render (handleButtonClick "=" (clicks ["5"; "+"; "3"] initialState)).
Proof.
  assert (pending_consistent (clicks ["5"; "+"; "3"] initialState)) as H
    by reflexivity.
  split; [exact H |].
  apply (equals_twice_is_equals_once (clicks ["5"; "+"; "3"] initialState) H).
Defined.

(** C10, as stated, fails in a state that awaits an operand: after fifteen
    digits and +, the display is still those fifteen digits, and a click on
    the decimal point replaces it by "0." instead of appending a point. *)
Lemma decimal_point_restarts_after_operator :
  all_digits
    (displayValue
       (clicks (labels_of "123456789012345" ++ ["+"])%list initialState))
  = true /\
  String.length
    (displayValue
       (clicks (labels_of "123456789012345" ++ ["+"])%list initialState))
  = 15 /\
  displayValue
    (handleButtonClick "."
       (clicks (labels_of "123456789012345" ++ ["+"])%list initialState))
  = "0." /\
  String.length
    (displayValue
       (handleButtonClick "."
          (clicks (labels_of "123456789012345" ++ ["+"])%list initialState)))
  <> 16.
Proof. vm_compute. repeat split; discriminate. Qed.

(** C10, amended.  In a state that does not await an operand and whose
    display is exactly 15 digits long, every digit clicked is dropped (the
    cap of [inputDigit]), while a click on the decimal point, which checks no
    length, appends the point and makes the display 16 characters long. *)
Theorem decimal_point_ignores_the_cap (s : CalculatorState) :
  waitingForOperand s = false ->
  all_digits (displayValue s) = true ->
  String.length (displayValue s) = 15 ->
  (forall c : ascii,
     JS.is_digit c = true -> handleButtonClick (String c EmptyString) s = s) /\
  displayValue (handleButtonClick "." s) = displayValue s ++ "." /\
  String.length (displayValue (handleButtonClick "." s)) = 16.
Proof.
  intros W Hdigits Hlen.
  assert (displayValue (handleButtonClick "." s) = displayValue s ++ ".")
    as Hpoint.
  { rewrite click_decimal. unfold inputDecimal.
    rewrite W, includes_char, (count_dot_digits _ Hdigits). reflexivity. }
  split; [| split; [exact Hpoint |]].
  - intros c Hc. rewrite (click_digit c s Hc). unfold inputDigit.
    now rewrite W, Hlen.
  - rewrite Hpoint, length_append, Hlen. reflexivity.
Qed.

Lemma decimal_point_ignores_the_cap_witness :
  waitingForOperand (clicks (labels_of "123456789012345") initialState)
  = false /\
  all_digits
    (displayValue (clicks (labels_of "123456789012345") initialState))
  = true /\
  String.length
    (displayValue (clicks (labels_of "123456789012345") initialState))
  = 15 /\
  handleButtonClick "6" (clicks (labels_of "123456789012345") initialState)
  = clicks (labels_of "123456789012345") initialState /\
  displayValue
    (handleButtonClick "."
       (clicks (labels_of "123456789012345") initialState))
  = "123456789012345.".
Proof.
  split; [reflexivity |]. split; [reflexivity |]. split; [reflexivity |].
  pose proof (decimal_point_ignores_the_cap
                (clicks (labels_of "123456789012345") initialState)
                eq_refl eq_refl eq_refl) as [Hdrop [Hpoint _]].
  split; [apply (Hdrop "6"%char); reflexivity | exact Hpoint].
Defined.

(** ** Further properties of the handlers *)

Lemma clicks_append (before after : list string) (s : CalculatorState) :
  clicks (before ++ after)%list s = clicks after (clicks before s).
Proof. apply fold_left_app. Qed.

(** X1.  A click on AC forgets everything before it: whatever was clicked
    before, from whatever state (one that shows the error marker included),
    the calculator goes on from the initial state. *)
Theorem clear_forgets_the_past
  (before after : list string) (s : CalculatorState) :
  clicks (before ++ "AC" :: after)%list s = clicks after initialState /\
  render (clicks (before ++ ["AC"])%list s) = ("0", EmptyString).
Proof.
  split.
  - rewrite clicks_append, clicks_cons, click_clear. reflexivity.
  - rewrite clicks_append. reflexivity.
Qed.

Lemma token_dispatch (t : Token) (s : CalculatorState) :
  valid_token t = true ->
  handleButtonClick (token_label t) s = transition t s.
Proof.
  destruct t as [c | | op | |]; cbn [valid_token token_label transition];
    intros H.
  - now apply click_digit.
  - apply click_decimal.
  - apply click_operator.
  - apply click_clear.
  - apply click_equals.
Qed.

(** X2.  The dispatcher on the token alphabet: the label of a digit, of the
    decimal point, of an operator, of clear and of equals triggers the
    transition of that token, and no other. *)
Theorem tokens_trigger_their_transition (t : Token) (s : CalculatorState) :
  valid_token t = true ->
  handleButtonClick (token_label t) s = transition t s.
Proof.
  destruct t as [c | | op | |]; cbn [valid_token token_label transition];
    intros H.
  - now apply click_digit.
  - apply click_decimal.
  - apply click_operator.
  - apply click_clear.
  - apply click_equals.
Qed.

Lemma tokens_trigger_their_transition_witness :
  valid_token (Digit "7") = true /\
  handleButtonClick "7" (showing "12") = showing "127".
Proof.
  split; [reflexivity |].
  exact (tokens_trigger_their_transition (Digit "7") (showing "12") eq_refl).
Defined.

(** X3.  Every button of the grid either sends the label of a token, and a
    click on it is the transition of that token, or is one of the two
    buttons that do nothing; and every token has its button. *)
Theorem keypad_sends_tokens :
  (forall button : Keypad.CalculatorButtonProps,
     In button Keypad.buttons ->
     (exists t : Token,
        valid_token t = true /\
        Keypad.label button = token_label t /\
        forall s, Keypad.click button s = transition t s) \/
     ((Keypad.label button = "+/-" \/ Keypad.label button = "%") /\
      forall s, Keypad.click button s = s)) /\
  (forall t : Token,
     valid_token t = true ->
     exists button : Keypad.CalculatorButtonProps,
       In button Keypad.buttons /\
       Keypad.label button = token_label t /\
       forall s, Keypad.click button s = transition t s).
Proof.
  assert (forall (t : Token) (z : bool),
            valid_token t = true ->
            forall s, Keypad.click (Keypad.key (token_label t) z) s
                      = transition t s) as Hkey.
  { intros t z Ht s. exact (token_dispatch t s Ht). }
  split.
  - intros button Hin.
    assert (forall (t : Token) (z : bool),
              valid_token t = true ->
              button = Keypad.key (token_label t) z ->
              exists t0 : Token,
                valid_token t0 = true /\
                Keypad.label button = token_label t0 /\
                forall s, Keypad.click button s = transition t0 s) as Hsent.
    { intros t z Ht ->. exists t. repeat split; [exact Ht | now apply Hkey]. }
    cbn [Keypad.buttons In] in Hin.
    repeat (destruct Hin as [<- | Hin]);
      try contradiction;
      first
        [ right; split; [now (left + right) | reflexivity]
        | left; apply (Hsent Clear false eq_refl eq_refl)
        | left; apply (Hsent Equals false eq_refl eq_refl)
        | left; apply (Hsent DecimalPoint false eq_refl eq_refl)
        | left; apply (Hsent (Operator Plus) false eq_refl eq_refl)
        | left; apply (Hsent (Operator Minus) false eq_refl eq_refl)
        | left; apply (Hsent (Operator Times) false eq_refl eq_refl)
        | left; apply (Hsent (Operator Divide) false eq_refl eq_refl)
        | left; apply (Hsent (Digit "0") true eq_refl eq_refl)
        | left; apply (Hsent (Digit "1") false eq_refl eq_refl)
        | left; apply (Hsent (Digit "2") false eq_refl eq_refl)
        | left; apply (Hsent (Digit "3") false eq_refl eq_refl)
        | left; apply (Hsent (Digit "4") false eq_refl eq_refl)
        | left; apply (Hsent (Digit "5") false eq_refl eq_refl)
        | left; apply (Hsent (Digit "6") false eq_refl eq_refl)
        | left; apply (Hsent (Digit "7") false eq_refl eq_refl)
        | left; apply (Hsent (Digit "8") false eq_refl eq_refl)
        | left; apply (Hsent (Digit "9") false eq_refl eq_refl) ].
  - intros t Ht.
    assert (forall z : bool,
              In (Keypad.key (token_label t) z) Keypad.buttons ->
              exists button : Keypad.CalculatorButtonProps,
                In button Keypad.buttons /\
                Keypad.label button = token_label t /\
                forall s, Keypad.click button s = transition t s) as Hfound.
    { intros z Hin. exists (Keypad.key (token_label t) z).
      repeat split; [exact Hin | now apply Hkey]. }
    destruct t as [c | | [] | |].
    + destruct c as [[] [] [] [] [] [] [] []]; try discriminate Ht;
        first [ apply (Hfound true); cbn; tauto
              | apply (Hfound false); cbn; tauto ].
    + apply (Hfound false); cbn; tauto.
    + apply (Hfound false); cbn; tauto.
    + apply (Hfound false); cbn; tauto.
    + apply (Hfound false); cbn; tauto.
    + apply (Hfound false); cbn; tauto.
    + apply (Hfound false); cbn; tauto.
    + apply (Hfound false); cbn; tauto.
Qed.

Lemma keypad_sends_tokens_witness :
  In (Keypad.key "7" false) Keypad.buttons /\
  valid_token (Digit "7") = true /\
  exists button : Keypad.CalculatorButtonProps,
    In button Keypad.buttons /\
    Keypad.label button = "7" /\
    forall s, Keypad.click button s = inputDigit "7" s.
Proof.
  split; [cbn; tauto |]. split; [reflexivity |].
  exact (proj2 keypad_sends_tokens (Digit "7") eq_refl).
Defined.

(** ** The secondary line and the awaited operand *)

Lemma click_history (label : string) (s : CalculatorState) :
  history_consistent s -> history_consistent (handleButtonClick label s).
Proof.
  apply (click_preserves history_consistent); unfold history_consistent.
  - intros digit s0 _ H. unfold inputDigit.
    destruct (waitingForOperand s0); [exact H |].
    destruct (15 <=? _)%nat; exact H.
  - intros s0 H. unfold inputDecimal.
    destruct (waitingForOperand s0); [exact H |].
    destruct (negb _); exact H.
  - reflexivity.
  - intros op s0 H. unfold performOperation.
    destruct (previousValue s0); [destruct (operation s0) eqn:O |];
      cbn [operation history].
    + eexists; reflexivity.
    + rewrite O. exact H.
    + eexists; reflexivity.
  - intros s0 H. unfold performEquals.
    destruct (operation s0) eqn:O; [destruct (previousValue s0) |];
      cbn [operation history]; rewrite ?O; solve [reflexivity | exact H].
Qed.

Lemma history_with_operator_not_empty (shown : string) (op : Operation) :
  JS.truthy (shown ++ " " ++ symbol op) = true.
Proof. destruct shown; reflexivity. Qed.

(** X4.  After any sequence of clicks from the initial state the secondary
    line is empty exactly while no operator is pending, and while one is
    pending it ends with a space and the symbol of that operator. *)
Theorem history_follows_the_pending_operator (labels : list string) :
  history_consistent (clicks labels initialState) /\
  JS.truthy (history (clicks labels initialState))
  = present (operation (clicks labels initialState)).
Proof.
  assert (history_consistent (clicks labels initialState)) as H.
  { apply (clicks_invariant history_consistent);
      [exact click_history | reflexivity]. }
  split; [exact H |].
  unfold history_consistent in H.
  destruct (operation (clicks labels initialState)) as [op |].
  - destruct H as [shown ->]. apply history_with_operator_not_empty.
  - now rewrite H.
Qed.

Lemma click_awaiting_shows (label : string) (s : CalculatorState) :
  awaiting_shows_operand s ->
  awaiting_shows_operand (handleButtonClick label s).
Proof.
  apply (click_preserves awaiting_shows_operand);
    unfold awaiting_shows_operand.
  - intros digit s0 _ H. unfold inputDigit.
    destruct (waitingForOperand s0) eqn:W; [discriminate |].
    destruct (15 <=? _)%nat; cbn; rewrite ?W; discriminate.
  - intros s0 H. unfold inputDecimal.
    destruct (waitingForOperand s0) eqn:W; [discriminate |].
    destruct (negb _); cbn; rewrite ?W; discriminate.
  - discriminate.
  - intros op s0 H. unfold performOperation.
    destruct (previousValue s0) as [previous |] eqn:P.
    + destruct (operation s0) as [pending |] eqn:O.
      * intros _. eexists. split; [reflexivity | right; reflexivity].
      * rewrite P. exact H.
    + intros _. eexists. split; [reflexivity | left; reflexivity].
  - intros s0 H. unfold performEquals.
    destruct (operation s0) eqn:O; [destruct (previousValue s0) eqn:P |];
      rewrite ?P; solve [discriminate | exact H].
Qed.

(** X5.  After any sequence of clicks from the initial state, an operand is
    awaited only while an operator and an operand are pending, and the
    pending operand is then the number on the display. *)
Theorem awaiting_state_shows_the_pending_operand (labels : list string) :
  waitingForOperand (clicks labels initialState) = true ->
  exists (v : JS.Number) (op : Operation),
    previousValue (clicks labels initialState) = Some v /\
    operation (clicks labels initialState) = Some op /\
    (v = JS.parseFloat (displayValue (clicks labels initialState)) \/
     displayValue (clicks labels initialState) = JS.ToString v).
Proof.
  intros W.
  assert (awaiting_shows_operand (clicks labels initialState)) as Hshow.
  { apply (clicks_invariant awaiting_shows_operand);
      [exact click_awaiting_shows | discriminate]. }
  destruct (Hshow W) as [v [Hv Hd]].
  destruct (reachable_well_formed labels) as [_ Ha].
  unfold awaiting_consistent in Ha. rewrite W in Ha.
  destruct (operation (clicks labels initialState)) as [op |];
    [| discriminate Ha].
  exists v, op. repeat split; assumption.
Qed.

Lemma awaiting_state_shows_the_pending_operand_witness :
  waitingForOperand (clicks ["5"; "+"; "3"; "×"] initialState) = true /\
  exists (v : JS.Number) (op : Operation),
    previousValue (clicks ["5"; "+"; "3"; "×"] initialState) = Some v /\
    operation (clicks ["5"; "+"; "3"; "×"] initialState) = Some op /\
    (v = JS.parseFloat
           (displayValue (clicks ["5"; "+"; "3"; "×"] initialState)) \/
     displayValue (clicks ["5"; "+"; "3"; "×"] initialState) = JS.ToString v).
Proof.
  split; [reflexivity |].
  exact (awaiting_state_shows_the_pending_operand
           ["5"; "+"; "3"; "×"] eq_refl).
Defined.

(** ** Typing the operands of an operation *)

Lemma inputDigit_entering (digit d : string) (s : CalculatorState) :
  inputDigit digit (entering s d)
  = if (15 <=? String.length d)%nat then entering s d
    else entering s (if d =? "0" then digit else d ++ digit).
Proof.
  unfold inputDigit. cbn [waitingForOperand displayValue entering].
  now destruct (15 <=? String.length d)%nat.
Qed.

Lemma entering_appends (typed d : string) (s : CalculatorState) :
  all_digits typed = true ->
  1 <= String.length d <= 15 -> d <> "0" ->
  clicks (labels_of typed) (entering s d)
  = entering s (JS.take 15 (d ++ typed)).
Proof.
  revert d. induction typed as [| c typed IH]; intros d Hall Hlen Hd.
  - cbn [labels_of clicks fold_left]. rewrite append_empty_r.
    f_equal. symmetry. apply take_all. lia.
  - cbn [all_digits] in Hall.
    apply andb_true_iff in Hall. destruct Hall as [Hc Hall].
    cbn [labels_of]. rewrite clicks_cons, (click_digit c _ Hc).
    rewrite inputDigit_entering.
    destruct (Nat.leb_spec 15 (String.length d)) as [Hfull | Hroom].
    + assert (String.length d = 15) as L by lia.
      rewrite (IH d Hall Hlen Hd). f_equal.
      rewrite <- L, !take_app_full. reflexivity.
    + destruct (String.eqb_spec d "0") as [-> | _]; [congruence |].
      rewrite (IH (d ++ String c EmptyString) Hall).
      * now rewrite append_assoc.
      * rewrite length_append. cbn [String.length]. lia.
      * intros E. apply (f_equal String.length) in E.
        rewrite length_append in E. cbn [String.length] in E. lia.
Qed.

Lemma entering_from_zero (typed : string) (s : CalculatorState) :
  all_digits typed = true ->
  clicks (labels_of typed) (entering s "0")
  = entering s (typed_operand typed).
Proof.
  unfold typed_operand.
  induction typed as [| c typed IH]; intros Hall; [reflexivity |].
  cbn [all_digits] in Hall.
  apply andb_true_iff in Hall. destruct Hall as [Hc Hall].
  cbn [labels_of]. rewrite clicks_cons, (click_digit c _ Hc).
  rewrite inputDigit_entering.
  change (15 <=? String.length "0")%nat with false.
  change ("0" =? "0") with true. cbv iota.
  unfold collapse_leading_zeros. cbn [strip_zeros].
  destruct (Ascii.eqb_spec c "0") as [-> | Hne].
  - apply (IH Hall).
  - rewrite (entering_appends typed (String c EmptyString) s Hall);
      [reflexivity | cbn [String.length]; lia | congruence].
Qed.

Lemma awaited_operand_typed (typed : string) (s : CalculatorState) :
  waitingForOperand s = true ->
  all_digits typed = true ->
  typed <> EmptyString ->
  clicks (labels_of typed) s = entering s (typed_operand typed).
Proof.
  intros W Hall Hne.
  destruct typed as [| c typed]; [congruence |].
  cbn [all_digits] in Hall.
  apply andb_true_iff in Hall. destruct Hall as [Hc Hall].
  cbn [labels_of]. rewrite clicks_cons, (click_digit c _ Hc).
  assert (inputDigit (String c EmptyString) s
          = entering s (String c EmptyString)) as ->
    by (unfold inputDigit; now rewrite W).
  unfold typed_operand, collapse_leading_zeros. cbn [strip_zeros].
  destruct (Ascii.eqb_spec c "0") as [-> | Hc0].
  - apply (entering_from_zero typed s Hall).
  - rewrite (entering_appends typed (String c EmptyString) s Hall);
      [reflexivity | cbn [String.length]; lia | congruence].
Qed.

(** X6.  While an operand is awaited, typing a non-empty sequence of digits
    starts a fresh operand: the display becomes the typed sequence with its
    leading zeros collapsed, cut to 15 characters, the flag is cleared, and
    the pending operand, the pending operator and the secondary line are
    kept. *)
Theorem awaited_operand_is_typed_afresh
  (typed : string) (s : CalculatorState) :
  waitingForOperand s = true ->
  all_digits typed = true ->
  typed <> EmptyString ->
  clicks (labels_of typed) s = entering s (typed_operand typed).
Proof.
  intros W Hall Hne.
  destruct typed as [| c typed]; [congruence |].
  cbn [all_digits] in Hall.
  apply andb_true_iff in Hall. destruct Hall as [Hc Hall].
  cbn [labels_of]. rewrite clicks_cons, (click_digit c _ Hc).
  assert (inputDigit (String c EmptyString) s
          = entering s (String c EmptyString)) as ->
    by (unfold inputDigit; now rewrite W).
  unfold typed_operand, collapse_leading_zeros. cbn [strip_zeros].
  destruct (Ascii.eqb_spec c "0") as [-> | Hc0].
  - apply (entering_from_zero typed s Hall).
  - rewrite (entering_appends typed (String c EmptyString) s Hall);
      [reflexivity | cbn [String.length]; lia | congruence].
Qed.

Lemma awaited_operand_is_typed_afresh_witness :
  waitingForOperand (clicks ["5"; "+"] initialState) = true /\
  all_digits "007" = true /\
  clicks ["5"; "+"; "0"; "0"; "7"] initialState
  = {| displayValue := "7";
       previousValue := Some (JS.parseFloat "5");
       operation := Some Plus;
       waitingForOperand := false;
       history := "5 +" |}.
Proof.
  split; [reflexivity |]. split; [reflexivity |].
  apply (awaited_operand_is_typed_afresh "007"
           (clicks ["5"; "+"] initialState) eq_refl eq_refl).
  discriminate.
Defined.

(** X7.  A whole calculation: typing the digits [a], an operator, the
    non-empty digits [b] and = from the initial state leaves a state that
    differs from the initial one in its display only, which holds the string
    of [calculate] applied to the two operands as the display showed
    them. *)
Theorem calculation_from_typed_operands (a b : string) (op : Operation) :
  all_digits a = true ->
  all_digits b = true ->
  b <> EmptyString ->
  clicks (labels_of a ++ symbol op :: labels_of b ++ ["="])%list initialState
  = showing
      (JS.ToString
         (calculate (JS.parseFloat (typed_operand a))
                    (JS.parseFloat (typed_operand b)) op)).
Proof.
  intros Ha Hb Hne.
  rewrite clicks_append, clicks_cons, clicks_append.
  change initialState with (showing "0").
  rewrite (typing_from_zero a Ha), click_operator.
  fold (typed_operand a).
  rewrite (awaited_operand_typed b);
    [reflexivity | reflexivity | exact Hb | exact Hne].
Qed.

Lemma calculation_from_typed_operands_witness :
  all_digits "123" = true /\
  all_digits "4" = true /\
  render (clicks ["1"; "2"; "3"; "+"; "4"; "="] initialState)
  = ("127", EmptyString).
Proof.
  split; [reflexivity |]. split; [reflexivity |].
  change (clicks ["1"; "2"; "3"; "+"; "4"; "="] initialState)
    with (clicks (labels_of "123" ++ symbol Plus :: labels_of "4" ++ ["="])%list
            initialState).
  rewrite (calculation_from_typed_operands "123" "4" Plus eq_refl eq_refl);
    [reflexivity | discriminate].
Defined.

(** X8.  An operator followed at once by = uses the displayed operand on
    both sides: typing the digits [a], an operator and = shows the string of
    [calculate] applied to that operand twice. *)
Theorem operator_then_equals_repeats_the_operand
  (a : string) (op : Operation) :
  all_digits a = true ->
  clicks (labels_of a ++ [symbol op; "="])%list initialState
  = showing
      (JS.ToString
         (calculate (JS.parseFloat (typed_operand a))
                    (JS.parseFloat (typed_operand a)) op)).
Proof.
  intros Ha. rewrite clicks_append.
  change initialState with (showing "0").
  rewrite (typing_from_zero a Ha).
  fold (typed_operand a).
  cbn [clicks fold_left]. rewrite click_operator. reflexivity.
Qed.

Lemma operator_then_equals_repeats_the_operand_witness :
  all_digits "5" = true /\
  render (clicks ["5"; "+"; "="] initialState) = ("10", EmptyString).
Proof.
  split; [reflexivity |].
  change (clicks ["5"; "+"; "="] initialState)
    with (clicks (labels_of "5" ++ [symbol Plus; "="])%list initialState).
  rewrite (operator_then_equals_repeats_the_operand "5" Plus eq_refl).
  reflexivity.
Defined.

(** ** The error marker *)

Lemma prefix_append (p d x : string) :
  String.prefix p d = true -> String.prefix p (d ++ x) = true.
Proof.
  revert d. induction p as [| a p IH]; intros d H.
  - now destruct (d ++ x).
  - destruct d as [| b d]; [discriminate H |].
    cbn [append String.prefix] in *.
    destruct (ascii_dec a b); [now apply IH | discriminate H].
Qed.

Lemma prefix_includes (p d : string) :
  String.prefix p d = true -> JS.includes d p = true.
Proof. intros H. destruct d; cbn [JS.includes]; now rewrite H. Qed.

(** [parseFloat] reads a string that starts with "Infinity" as the number
    [Infinity], whatever follows. *)
Lemma parseFloat_Infinity (d : string) :
  String.prefix "Infinity" d = true -> JS.parseFloat d = JS.Infinity.
Proof.
  intros H. destruct d as [| c rest]; [discriminate H |].
  assert (c = "I"%char) as ->.
  { cbn [String.prefix] in H.
    destruct (ascii_dec "I" c); [congruence | discriminate H]. }
  unfold JS.parseFloat.
  change (JS.trimStart (String "I" rest)) with (String "I" rest).
  cbv iota beta. now rewrite H.
Qed.

Lemma entry_key_cases (c : ascii) :
  (JS.is_digit c || Ascii.eqb c ".") = true ->
  JS.is_digit c = true \/ c = "."%char.
Proof.
  intros H. apply orb_true_iff in H. destruct H as [H | H]; [now left |].
  right. now apply Ascii.eqb_eq.
Qed.

Lemma error_survives_entry_key (c : ascii) (s : CalculatorState) :
  (JS.is_digit c || Ascii.eqb c ".") = true ->
  waitingForOperand s = false ->
  String.prefix "Infinity" (displayValue s) = true ->
  waitingForOperand (handleButtonClick (String c EmptyString) s) = false /\
  String.prefix "Infinity"
    (displayValue (handleButtonClick (String c EmptyString) s)) = true /\
  previousValue (handleButtonClick (String c EmptyString) s)
  = previousValue s /\
  operation (handleButtonClick (String c EmptyString) s) = operation s.
Proof.
  intros Hc W Hp. destruct (entry_key_cases c Hc) as [Hd | ->].
  - rewrite (click_digit c s Hd). unfold inputDigit. rewrite W.
    destruct (15 <=? _)%nat; cbn; [now rewrite W |].
    repeat split; try assumption.
    destruct (String.eqb_spec (displayValue s) "0") as [E | _].
    + rewrite E in Hp. discriminate Hp.
    + now apply prefix_append.
  - rewrite click_decimal. unfold inputDecimal. rewrite W.
    destruct (negb _); cbn; [| now rewrite W].
    repeat split; try assumption. now apply prefix_append.
Qed.

(** X9.  The error marker is not left by typing: in a state that awaits no
    operand and whose display starts with "Infinity" (as after a division by
    zero and =), any sequence of digits and decimal points leaves the main
    display at "Error", the displayed value at [Infinity] and the pending
    fields as they were. *)
Theorem error_marker_survives_typing (typed : string) (s : CalculatorState) :
  all_entry_keys typed = true ->
  waitingForOperand s = false ->
  String.prefix "Infinity" (displayValue s) = true ->
  fst (render (clicks (labels_of typed) s)) = "Error" /\
  JS.parseFloat (displayValue (clicks (labels_of typed) s)) = JS.Infinity /\
  previousValue (clicks (labels_of typed) s) = previousValue s /\
  operation (clicks (labels_of typed) s) = operation s.
Proof.
  revert s. induction typed as [| c typed IH]; intros s Hall W Hp.
  - cbn [labels_of clicks fold_left]. repeat split.
    + unfold render, formatDisplayValue. cbn [fst].
      now rewrite (prefix_includes _ _ Hp).
    + now apply parseFloat_Infinity.
  - cbn [all_entry_keys] in Hall.
    apply andb_true_iff in Hall. destruct Hall as [Hc Hall].
    cbn [labels_of]. rewrite clicks_cons.
    destruct (error_survives_entry_key c s Hc W Hp) as [W' [Hp' [P' O']]].
    destruct (IH _ Hall W' Hp') as [R [V [P O]]].
    repeat split; congruence.
Qed.

Lemma error_marker_survives_typing_witness :
  all_entry_keys "5.2" = true /\
  waitingForOperand (clicks ["9"; "÷"; "0"; "="] initialState) = false /\
  String.prefix "Infinity"
    (displayValue (clicks ["9"; "÷"; "0"; "="] initialState)) = true /\
  displayValue (clicks ["9"; "÷"; "0"; "="; "5"; "."; "2"] initialState)
  = "Infinity5.2" /\
  fst (render (clicks ["9"; "÷"; "0"; "="; "5"; "."; "2"] initialState))
  = "Error".
Proof.
  split; [reflexivity |]. split; [reflexivity |]. split; [reflexivity |].
  split; [reflexivity |].
  exact (proj1 (error_marker_survives_typing "5.2"
                  (clicks ["9"; "÷"; "0"; "="] initialState)
                  eq_refl eq_refl eq_refl)).
Defined.

(** ** Arithmetic *)

(** X10.  Sums and products do not depend on the order of the operands, for
    all numbers ([NaN], infinities and signed zeros included). *)
Theorem sum_and_product_commute (a b : JS.Number) :
  calculate a b Plus = calculate b a Plus /\
  calculate a b Times = calculate b a Times.
Proof.
  unfold calculate, JS.add, JS.mul, SFadd, SFmul. split.
  - destruct a as [sa | sa | | sa ma ea], b as [sb | sb | | sb mb eb];
      try reflexivity; try (destruct sa, sb; reflexivity).
    rewrite (Z.min_comm ea eb), Z.add_comm. reflexivity.
  - destruct a as [sa | sa | | sa ma ea], b as [sb | sb | | sb mb eb];
      try reflexivity; try (destruct sa, sb; reflexivity).
    rewrite (xorb_comm sa sb), (Pos.mul_comm ma mb), (Z.add_comm ea eb).
    reflexivity.
Qed.

(** X11.  [NaN] is absorbing, but for the division guard: with an operand
    that is [NaN], a division by zero still gives the sentinel [Infinity],
    and every other operation gives [NaN]. *)
Theorem nan_is_absorbing_but_for_division_by_zero
  (a b : JS.Number) (op : Operation) :
  is_nan a || is_nan b = true ->
  calculate a b op
  = match op with
    | Divide => if JS.is_zero b then JS.Infinity else JS.NaN
    | _ => JS.NaN
    end.
Proof.
  intros H. apply orb_true_iff in H.
  destruct H as [H | H];
    [destruct a; try discriminate H | destruct b; try discriminate H];
    destruct op; try reflexivity;
    solve [now destruct b | now destruct a].
Qed.

Lemma nan_is_absorbing_but_for_division_by_zero_witness :
  is_nan JS.NaN || is_nan (JS.parseFloat "0") = true /\
  calculate JS.NaN (JS.parseFloat "0") Divide = JS.Infinity /\
  calculate JS.NaN (JS.parseFloat "0") Times = JS.NaN.
Proof.
  split; [reflexivity |]. split.
  - exact (nan_is_absorbing_but_for_division_by_zero
             JS.NaN (JS.parseFloat "0") Divide eq_refl).
  - exact (nan_is_absorbing_but_for_division_by_zero
             JS.NaN (JS.parseFloat "0") Times eq_refl).
Defined.

(** ** The main line *)

Lemma split_without_separator (sep : ascii) (s : string) :
  JS.count sep s = 0 -> JS.split sep s = [s].
Proof.
  induction s as [| c s IH]; cbn [JS.split JS.count]; [reflexivity |].
  destruct (Ascii.eqb c sep); [discriminate |].
  intros H. now rewrite (IH H).
Qed.

Lemma split_at_first_separator (sep : ascii) (s rest : string) :
  JS.count sep s = 0 ->
  JS.split sep (s ++ String sep rest) = s :: JS.split sep rest.
Proof.
  induction s as [| c s IH]; cbn [JS.split JS.count append].
  - now rewrite Ascii.eqb_refl.
  - destruct (Ascii.eqb c sep); [discriminate |].
    intros H. now rewrite (IH H).
Qed.

Lemma prefix_before_other_character (c : ascii) (n s : string) :
  JS.count c n = 0 ->
  String.prefix n (s ++ String c EmptyString) = String.prefix n s.
Proof.
  revert n. induction s as [| d s IH]; intros [| a n] H;
    cbn [append String.prefix]; try reflexivity.
  - cbn [JS.count] in H.
    destruct (ascii_dec a c) as [-> | _]; [| reflexivity].
    rewrite Ascii.eqb_refl in H. discriminate H.
  - destruct (ascii_dec a d); [| reflexivity].
    apply IH. cbn [JS.count] in H. lia.
Qed.

Lemma includes_before_other_character (c : ascii) (n s : string) :
  JS.count c n = 0 -> n <> EmptyString ->
  JS.includes (s ++ String c EmptyString) n = JS.includes s n.
Proof.
  intros H Hn. induction s as [| d s IH].
  - cbn [append JS.includes].
    destruct n as [| a n]; [congruence |]. cbn [String.prefix].
    destruct (ascii_dec a c) as [-> | _]; [| reflexivity].
    cbn [JS.count] in H. rewrite Ascii.eqb_refl in H. discriminate H.
  - change (String d s ++ String c EmptyString)
      with (String d (s ++ String c EmptyString)).
    cbn [JS.includes]. rewrite IH.
    change (String d (s ++ String c EmptyString))
      with (String d s ++ String c EmptyString).
    now rewrite (prefix_before_other_character c n (String d s) H).
Qed.

(** X12.  A decimal point at the end of the display is not shown: the main
    line of a display without a point and of the same display followed by a
    point are the same. *)
Theorem trailing_point_is_not_shown (digits : string) :
  JS.count "." digits = 0 ->
  formatDisplayValue (digits ++ ".") = formatDisplayValue digits.
Proof.
  intros H. unfold formatDisplayValue.
  rewrite (includes_before_other_character "." "Infinity" digits)
    by (reflexivity || discriminate).
  rewrite (split_at_first_separator "." digits EmptyString H).
  rewrite (split_without_separator "." digits H).
  reflexivity.
Qed.

Lemma trailing_point_is_not_shown_witness :
  JS.count "." "1234" = 0 /\
  formatDisplayValue "1234." = "1,234".
Proof.
  split; [reflexivity |].
  change "1234." with ("1234" ++ ".").
  now rewrite (trailing_point_is_not_shown "1234" eq_refl).
Defined.

(** X13.  The digits typed after the decimal point are shown as typed: for
    a display made of an integer part, a point and a non-empty fraction
    (neither holding a point) that does not hold "Infinity", the main line is
    the integer part formatted as a number, a point, and the fraction
    itself. *)
Theorem fraction_is_shown_as_typed (integer fraction : string) :
  JS.count "." integer = 0 ->
  JS.count "." fraction = 0 ->
  fraction <> EmptyString ->
  JS.includes (integer ++ "." ++ fraction) "Infinity" = false ->
  formatDisplayValue (integer ++ "." ++ fraction)
  = JS.toLocaleString (JS.parseFloat integer) ++ "." ++ fraction.
Proof.
  intros Hi Hf Hne Hinf. unfold formatDisplayValue. rewrite Hinf.
  change ("." ++ fraction) with (String "." fraction).
  rewrite (split_at_first_separator "." integer fraction Hi).
  rewrite (split_without_separator "." fraction Hf).
  destruct fraction; [congruence | reflexivity].
Qed.

Lemma fraction_is_shown_as_typed_witness :
  JS.count "." "1234" = 0 /\
  JS.count "." "500" = 0 /\
  JS.includes "1234.500" "Infinity" = false /\
  formatDisplayValue "1234.500" = "1,234.500".
Proof.
  split; [reflexivity |]. split; [reflexivity |]. split; [reflexivity |].
  change "1234.500" with ("1234" ++ "." ++ "500") at 1.
  rewrite (fraction_is_shown_as_typed "1234" "500" eq_refl eq_refl);
    [reflexivity | discriminate | reflexivity].
Defined.

(** ** The display is never empty *)

Lemma truthy_length (s : string) :
  JS.truthy s = true <-> 1 <= String.length s.
Proof. destruct s; cbn; split; intros; solve [lia | reflexivity | discriminate]. Qed.

Lemma decimal_not_empty (z : Z) : 1 <= String.length (JS.decimal z).
Proof.
  unfold JS.decimal, N.to_uint.
  destruct (Z.to_N z) as [| p]; [cbn; lia |].
  pose proof (Unsigned.to_uint_nonnil p) as H.
  destruct (Pos.to_uint p); cbn; solve [congruence | lia].
Qed.

Lemma layout_not_empty (ds : string) (n : Z) :
  1 <= String.length ds -> 1 <= String.length (JS.layout ds n).
Proof.
  intros H. unfold JS.layout.
  destruct (_ && _); [rewrite length_append; lia |].
  destruct (_ && _);
    [rewrite !length_append; cbn [String.length]; lia |].
  destruct (_ && _); [cbn [append String.length]; lia |].
  destruct ds as [| d [| d' rest]]; cbn [append String.length] in *; lia.
Qed.

Lemma ToString_not_empty (x : JS.Number) : 1 <= String.length (JS.ToString x).
Proof.
  destruct x as [s | [|] | | neg m e];
    [cbn; lia | cbn; lia | cbn; lia | cbn; lia |].
  unfold JS.ToString, JS.shortest.
  destruct (JS.ratio_of m e) as [num den].
  destruct (JS.shortest_from _ _ _ _ _ _ _) as [s k].
  destruct (s =? 10 ^ k)%Z; rewrite length_append;
    match goal with
    | |- context [JS.layout (JS.decimal ?z) ?n] =>
        pose proof (layout_not_empty _ n (decimal_not_empty z))
    end; lia.
Qed.

Lemma append_not_empty (s t : string) :
  1 <= String.length s -> 1 <= String.length (s ++ t).
Proof. rewrite length_append. lia. Qed.

(** A click on a non-empty label keeps the display non-empty. *)
Lemma click_display_not_empty (label : string) (s : CalculatorState) :
  1 <= String.length label ->
  1 <= String.length (displayValue s) ->
  1 <= String.length (displayValue (handleButtonClick label s)).
Proof.
  intros Hl Hs. unfold handleButtonClick.
  destruct (JS.includes "0123456789" label).
  { unfold inputDigit. destruct (waitingForOperand s); [exact Hl |].
    destruct (15 <=? _)%nat; [exact Hs |]. cbn [displayValue].
    destruct (displayValue s =? "0"); [exact Hl | now apply append_not_empty]. }
  destruct (label =? ".").
  { unfold inputDecimal. destruct (waitingForOperand s); [cbn; lia |].
    destruct (negb _); [now apply append_not_empty | exact Hs]. }
  destruct (label =? "AC"); [cbn; lia |].
  destruct (existsb _ _).
  { destruct (as_Operation label); [| exact Hs]. unfold performOperation.
    destruct (previousValue s); [destruct (operation s) |];
      solve [exact Hs | apply ToString_not_empty]. }
  destruct (label =? "="); [| exact Hs]. unfold performEquals.
  destruct (operation s); [destruct (previousValue s) |];
    solve [exact Hs | apply ToString_not_empty].
Qed.

Lemma press_display_not_empty
  (button : Keypad.CalculatorButtonProps) (s : CalculatorState) :
  In button Keypad.buttons ->
  1 <= String.length (displayValue s) ->
  1 <= String.length (displayValue (Keypad.click button s)).
Proof.
  intros Hin Hs. cbn [Keypad.buttons In] in Hin.
  repeat (destruct Hin as [<- | Hin]); try contradiction;
    cbn [Keypad.click Keypad.key Keypad.disabled Keypad.onClick
         Keypad.label Keypad.noop];
    first [ apply click_display_not_empty;
            [cbn [String.length]; lia | exact Hs]
          | exact Hs ].
Qed.

(** X14.  Whatever buttons of the grid are pressed from the initial state,
    the display is never the empty string (which the dispatcher alone does
    not ensure: the empty label empties it). *)
Theorem keypad_display_is_never_empty
  (pressed : list Keypad.CalculatorButtonProps) :
  Forall (fun button => In button Keypad.buttons) pressed ->
  displayValue (Keypad.presses pressed initialState) <> EmptyString.
Proof.
  intros Hall.
  assert (forall s, 1 <= String.length (displayValue s) ->
            1 <= String.length (displayValue (Keypad.presses pressed s)))
    as Hinv.
  { induction Hall as [| button pressed Hin _ IH]; intros s Hs;
      [exact Hs |].
    apply IH. now apply press_display_not_empty. }
  specialize (Hinv initialState).
  destruct (displayValue (Keypad.presses pressed initialState));
    [cbn in Hinv; lia | discriminate].
Qed.

Lemma keypad_display_is_never_empty_witness :
  Forall (fun button => In button Keypad.buttons)
    [Keypad.key "9" false; Keypad.key "÷" false; Keypad.key "0" true;
     Keypad.key "=" false] /\
  displayValue
    (Keypad.presses
       [Keypad.key "9" false; Keypad.key "÷" false; Keypad.key "0" true;
        Keypad.key "=" false] initialState) <> EmptyString.
Proof.
  assert (Forall (fun button => In button Keypad.buttons)
            [Keypad.key "9" false; Keypad.key "÷" false;
             Keypad.key "0" true; Keypad.key "=" false]) as H
    by (repeat
          (apply Forall_cons;
           [cbn [Keypad.buttons In];
            repeat (first [left; reflexivity | right]) |]);
        apply Forall_nil).
  split; [exact H | exact (keypad_display_is_never_empty _ H)].
Defined.

(** ** The look of the buttons *)



(** ** Typing a decimal number *)

Lemma entering_full (typed d : string) (s : CalculatorState) :
  all_digits typed = true ->
  15 <= String.length d ->
  clicks (labels_of typed) (entering s d) = entering s d.
Proof.
  intros Hall Hlen. induction typed as [| c typed IH]; [reflexivity |].
  cbn [all_digits] in Hall.
  apply andb_true_iff in Hall. destruct Hall as [Hc Hall].
  cbn [labels_of]. rewrite clicks_cons, (click_digit c _ Hc).
  rewrite inputDigit_entering.
  destruct (Nat.leb_spec 15 (String.length d)); [now apply IH | lia].
Qed.

Lemma all_digits_take (n : nat) (s : string) :
  all_digits s = true -> all_digits (JS.take n s) = true.
Proof.
  revert s. induction n as [| n IH]; intros [| c s] H; try reflexivity.
  cbn [all_digits JS.take] in *.
  apply andb_true_iff in H. destruct H as [Hc Hs].
  now rewrite Hc, (IH s Hs).
Qed.

Lemma all_digits_strip_zeros (s : string) :
  all_digits s = true -> all_digits (strip_zeros s) = true.
Proof.
  induction s as [| c s IH]; intros H; [reflexivity |].
  cbn [strip_zeros]. destruct (Ascii.eqb c "0"); [| exact H].
  cbn [all_digits] in H. apply andb_true_iff in H. now apply IH.
Qed.

(** The operand left by typed digits is made of digits. *)
Lemma all_digits_typed_operand (typed : string) :
  all_digits typed = true -> all_digits (typed_operand typed) = true.
Proof.
  intros H. apply all_digits_take. unfold collapse_leading_zeros.
  pose proof (all_digits_strip_zeros typed H) as Hs.
  now destruct (strip_zeros typed).
Qed.

(** X16.  Typing a decimal number into the initial state: after the digits
    [a], the decimal point and the digits [f], the display is the integer
    part as typed (leading zeros collapsed, at most 15 digits), the point,
    and the digits of [f] that fit into 15 characters; only the display
    differs from the initial state. *)
Theorem decimal_number_is_typed (a f : string) :
  all_digits a = true ->
  all_digits f = true ->
  clicks (labels_of a ++ "." :: labels_of f)%list initialState
  = showing
      (if (15 <=? String.length (typed_operand a ++ "."))%nat
       then typed_operand a ++ "."
       else JS.take 15 ((typed_operand a ++ ".") ++ f)).
Proof.
  intros Ha Hf. rewrite clicks_append, clicks_cons.
  change initialState with (showing "0").
  rewrite (typing_from_zero a Ha). fold (typed_operand a).
  rewrite click_decimal.
  assert (inputDecimal (showing (typed_operand a))
          = entering initialState (typed_operand a ++ ".")) as ->.
  { unfold inputDecimal. cbn [waitingForOperand displayValue showing].
    rewrite includes_char,
      (count_dot_digits _ (all_digits_typed_operand a Ha)).
    reflexivity. }
  destruct (Nat.leb_spec 15 (String.length (typed_operand a ++ ".")))
    as [Hfull | Hroom].
  - now rewrite (entering_full f _ initialState Hf Hfull).
  - rewrite (entering_appends f _ initialState Hf); [reflexivity | |].
    + rewrite length_append in *. cbn [String.length] in *. lia.
    + intros E. apply (f_equal (JS.count ".")) in E.
      rewrite count_app in E. cbn in E. lia.
Qed.

Lemma decimal_number_is_typed_witness :
  all_digits "012" = true /\
  all_digits "50" = true /\
  clicks ["0"; "1"; "2"; "."; "5"; "0"] initialState = showing "12.50" /\
  render (clicks ["0"; "1"; "2"; "."; "5"; "0"] initialState)
  = ("12.50", EmptyString).
Proof.
  split; [reflexivity |]. split; [reflexivity |].
  assert (clicks ["0"; "1"; "2"; "."; "5"; "0"] initialState
          = showing "12.50") as H
    by exact (decimal_number_is_typed "012" "50" eq_refl eq_refl).
  split; [exact H | now rewrite H].
Defined.

(** ** Reading and printing integers *)

Lemma digits_have_uint (d : string) :
  all_digits d = true -> exists u : uint, NilEmpty.string_of_uint u = d.
Proof.
  induction d as [| c d IH]; intros H; [now exists Nil |].
  cbn [all_digits] in H. apply andb_true_iff in H. destruct H as [Hc Hd].
  destruct (IH Hd) as [u <-].
  destruct c as [[] [] [] [] [] [] [] []]; try discriminate Hc;
    first [ now exists (D0 u) | now exists (D1 u) | now exists (D2 u)
          | now exists (D3 u) | now exists (D4 u) | now exists (D5 u)
          | now exists (D6 u) | now exists (D7 u) | now exists (D8 u)
          | now exists (D9 u) ].
Qed.

Lemma scan_digits_uint_acc (u : uint) (acc : positive) (k : nat) :
  JS.scan_digits (Zpos acc) k (NilEmpty.string_of_uint u)
  = (Zpos (Pos.of_uint_acc u acc),
     k + String.length (NilEmpty.string_of_uint u), EmptyString).
Proof.
  revert acc k.
  induction u as [| u IH | u IH | u IH | u IH | u IH | u IH | u IH | u IH
                  | u IH | u IH]; intros acc k;
    [ cbn; f_equal; f_equal; lia | .. ];
    cbn [NilEmpty.string_of_uint JS.scan_digits String.length
         Pos.of_uint_acc];
    match goal with
    | |- context [JS.digit_val ?c] =>
        let v := eval vm_compute in (JS.digit_val c) in
        change (JS.digit_val c) with v
    end; cbv iota beta;
    match goal with
    | |- JS.scan_digits ?z _ _ = (Zpos (Pos.of_uint_acc _ ?a), _, _) =>
        replace z with (Zpos a) by lia
    end; rewrite IH; f_equal; f_equal; lia.
Qed.

Lemma scan_digits_uint (u : uint) (k : nat) :
  JS.scan_digits 0 k (NilEmpty.string_of_uint u)
  = (Z.of_N (Pos.of_uint u),
     k + String.length (NilEmpty.string_of_uint u), EmptyString).
Proof.
  revert k.
  induction u as [| u IH | u IH | u IH | u IH | u IH | u IH | u IH | u IH
                  | u IH | u IH]; intros k;
    [ cbn; f_equal; f_equal; lia | .. ];
    cbn [NilEmpty.string_of_uint JS.scan_digits String.length Pos.of_uint];
    match goal with
    | |- context [JS.digit_val ?c] =>
        let v := eval vm_compute in (JS.digit_val c) in
        change (JS.digit_val c) with v
    end; cbv iota beta;
    [ change (0 * 10 + 0)%Z with 0%Z; rewrite IH; f_equal; f_equal; lia
    | .. ];
    match goal with
    | |- JS.scan_digits ?z _ _ = _ =>
        let v := eval vm_compute in z in change z with v
    end; rewrite scan_digits_uint_acc; cbn [Z.of_N]; f_equal; f_equal; lia.
Qed.

Lemma string_of_unorm (u : uint) :
  NilEmpty.string_of_uint (unorm u)
  = collapse_leading_zeros (NilEmpty.string_of_uint u).
Proof.
  unfold unorm, collapse_leading_zeros.
  induction u; try reflexivity.
  cbn [nzhead NilEmpty.string_of_uint strip_zeros].
  change (Ascii.eqb "0" "0") with true. exact IHu.
Qed.

(** The digits of the value of a digit string are the string with its
    leading zeros collapsed. *)
Lemma decimal_of_scanned (d : string) :
  all_digits d = true ->
  exists n : Z,
    JS.scan_digits 0 0 d = (n, String.length d, EmptyString) /\
    (0 <= n)%Z /\
    JS.decimal n = collapse_leading_zeros d.
Proof.
  intros H. destruct (digits_have_uint d H) as [u <-].
  exists (Z.of_N (Pos.of_uint u)). rewrite scan_digits_uint.
  split; [reflexivity |]. split; [lia |].
  unfold JS.decimal. rewrite N2Z.id.
  change (N.to_uint (Pos.of_uint u)) with (N.to_uint (N.of_uint u)).
  rewrite DecimalN.Unsigned.to_of. apply string_of_unorm.
Qed.

(** ** Integers below 2^53 as binary64 numbers *)

Lemma digits2_pos_size (p : positive) : digits2_pos p = Pos.size p.
Proof. induction p; cbn; congruence. Qed.

Lemma Zdigits2_log2 (n : Z) :
  (0 < n)%Z -> Zdigits2 n = (Z.log2 n + 1)%Z.
Proof.
  destruct n as [| p | p]; try lia. intros _.
  cbn [Zdigits2]. rewrite digits2_pos_size.
  destruct p; cbn [Pos.size Z.log2]; lia.
Qed.

Lemma div_eucl_by_one (a : Z) : Z.div_eucl a 1 = (a, 0%Z).
Proof.
  pose proof (Z.div_eucl_eq a 1) as E.
  pose proof (Z.mod_pos_bound a 1) as B. unfold Z.modulo in B.
  destruct (Z.div_eucl a 1) as [q r]. f_equal; lia.
Qed.

Lemma fexp_normal (x : Z) :
  (-1021 <= x)%Z -> fexp JS.prec JS.emax x = (x - 53)%Z.
Proof. unfold fexp, emin, JS.prec, JS.emax. lia. Qed.

(** An integer below 2^53 is a binary64 number: reading it rounds
    nothing. *)
Lemma of_ratio_integer (n : Z) :
  (0 < n < 2 ^ 53)%Z ->
  exists (m : positive) (e : Z),
    JS.of_ratio false n 1 = S754_finite false m e /\
    (e <= 0)%Z /\ Zpos m = (n * 2 ^ (- e))%Z.
Proof.
  intros [Hpos Hlt].
  pose proof (Z.log2_nonneg n) as Hlog0.
  assert (Z.log2 n < 53)%Z as Hlog by (apply Z.log2_lt_pow2; lia).
  set (D := (Z.log2 n + 1)%Z) in *.
  assert (Zdigits2 n = D) as HD by now apply Zdigits2_log2.
  set (h := (n * 2 ^ (53 - D))%Z).
  assert (0 < 2 ^ (53 - D))%Z as Hpow by (apply Z.pow_pos_nonneg; lia).
  assert (0 < h)%Z as Hh by (unfold h; lia).
  assert (n * 2 ^ (54 - D) = 2 * h)%Z as HM.
  { unfold h. replace (54 - D)%Z with (Z.succ (53 - D)) by lia.
    rewrite Z.pow_succ_r by lia. ring. }
  assert (Z.log2 h = 52)%Z as Hlogh.
  { unfold h. rewrite Z.log2_mul_pow2 by lia. lia. }
  assert (Z.log2 (2 * h) = 53)%Z as HlogM.
  { rewrite <- HM, Z.log2_mul_pow2 by lia. lia. }
  destruct h as [| hp | hp] eqn:Eh; try lia.
  assert (SFdiv_core_binary JS.prec JS.emax n 0 1 0
          = (Zpos hp~0, (D - 54)%Z, loc_Exact)) as Hcore.
  { unfold SFdiv_core_binary. rewrite HD.
    change (Zdigits2 1) with 1%Z. cbv zeta.
    rewrite fexp_normal by lia.
    replace (Z.min (D + 0 - (1 + 0) - 53) (0 - 0)) with (D - 54)%Z by lia.
    replace (0 - 0 - (D - 54))%Z with (54 - D)%Z by lia.
    assert (exists s : positive, (54 - D)%Z = Zpos s) as [s Es]
      by (destruct (54 - D)%Z as [| s | s] eqn:Es; try lia; now exists s).
    rewrite Es. rewrite Z.shiftl_mul_pow2 by lia. rewrite <- Es, HM.
    rewrite div_eucl_by_one. reflexivity. }
  assert (shr_fexp JS.prec JS.emax (Zpos hp~0) (D - 54) loc_Exact
          = ({| shr_m := Zpos hp; shr_r := false; shr_s := false |},
             (D - 53)%Z)) as Hshr1.
  { unfold shr_fexp. rewrite Zdigits2_log2 by lia.
    change (Z.log2 (Zpos hp~0)) with (Z.log2 (2 * Zpos hp)). rewrite HlogM.
    rewrite fexp_normal by lia.
    replace (53 + 1 + (D - 54) - 53 - (D - 54))%Z with 1%Z by lia.
    cbn [shr iter_pos shr_record_of_loc shr_1 orb]. f_equal. lia. }
  assert (shr_fexp JS.prec JS.emax (Zpos hp) (D - 53) loc_Exact
          = ({| shr_m := Zpos hp; shr_r := false; shr_s := false |},
             (D - 53)%Z)) as Hshr2.
  { unfold shr_fexp. rewrite Zdigits2_log2 by lia. rewrite Hlogh.
    rewrite fexp_normal by lia.
    replace (52 + 1 + (D - 53) - 53 - (D - 53))%Z with 0%Z by lia.
    reflexivity. }
  exists hp, (D - 53)%Z. split; [| split; [lia |]].
  - unfold JS.of_ratio.
    replace (n <=? 0)%Z with false by (symmetry; apply Z.leb_gt; lia).
    rewrite Hcore. unfold binary_round_aux. rewrite Hshr1.
    cbn [shr_m shr_r shr_s loc_of_shr_record round_nearest_even].
    rewrite Hshr2. cbn [shr_m].
    replace (D - 53 <=? JS.emax - JS.prec)%Z with true
      by (symmetry; apply Z.leb_le; unfold JS.emax, JS.prec; lia).
    reflexivity.
  - replace (- (D - 53))%Z with (53 - D)%Z by lia. symmetry. exact Eh.
Qed.

(** ** Reading a typed integer *)

Lemma digit_val_range (c : ascii) (v : Z) :
  JS.digit_val c = Some v -> (0 <= v <= 9)%Z.
Proof.
  unfold JS.digit_val.
  destruct (Nat.leb_spec 48 (nat_of_ascii c)); cbn [andb];
    [| discriminate].
  destruct (Nat.leb_spec (nat_of_ascii c) 57); [| discriminate].
  intros [= <-]. lia.
Qed.

Lemma scan_digits_bound (s : string) (acc : Z) (k : nat) :
  (0 <= acc)%Z ->
  (fst (fst (JS.scan_digits acc k s))
   < (acc + 1) * 10 ^ Z.of_nat (String.length s))%Z.
Proof.
  revert acc k. induction s as [| c s IH]; intros acc k Hacc.
  - cbn. lia.
  - cbn [JS.scan_digits String.length].
    assert (0 < 10 ^ Z.of_nat (String.length s))%Z as Hpow
      by (apply Z.pow_pos_nonneg; lia).
    rewrite Nat2Z.inj_succ, Z.pow_succ_r by lia.
    destruct (JS.digit_val c) as [v |] eqn:Ec.
    + apply digit_val_range in Ec.
      specialize (IH (acc * 10 + v)%Z (S k)).
      assert (0 <= acc * 10 + v)%Z as H0 by lia. specialize (IH H0).
      nia.
    + cbn [fst]. nia.
Qed.

Lemma count_not_digit (c : ascii) (d : string) :
  JS.is_digit c = false -> all_digits d = true -> JS.count c d = 0.
Proof.
  intros Hc. induction d as [| a d IH]; cbn [all_digits JS.count];
    [reflexivity |].
  intros H. apply andb_true_iff in H. destruct H as [Ha Hd].
  rewrite (IH Hd).
  destruct (Ascii.eqb_spec a c) as [-> | _]; [congruence | reflexivity].
Qed.

Lemma digits_hold_no_Infinity (d : string) :
  all_digits d = true -> JS.includes d "Infinity" = false.
Proof.
  intros H. destruct (JS.includes d "Infinity") eqn:E; [| reflexivity].
  apply (count_includes "I") in E.
  rewrite (count_not_digit "I" d eq_refl H) in E. cbn in E. lia.
Qed.

(** [parseFloat] of a non-empty string of digits is the number nearest to
    the value of the digits. *)
Lemma parseFloat_digits (d : string) (n : Z) :
  all_digits d = true -> d <> EmptyString ->
  JS.scan_digits 0 0 d = (n, String.length d, EmptyString) ->
  JS.parseFloat d = JS.of_decimal false n 0.
Proof.
  intros Hall Hne Hscan. destruct d as [| c rest]; [congruence |].
  cbn [all_digits] in Hall. apply andb_true_iff in Hall.
  destruct Hall as [Hc _].
  destruct c as [[] [] [] [] [] [] [] []]; try discriminate Hc;
    unfold JS.parseFloat;
    match goal with
    | |- context [JS.trimStart ?s] => change (JS.trimStart s) with s
    end; cbv iota beta;
    match goal with
    | |- context [String.prefix "Infinity" ?s] =>
        change (String.prefix "Infinity" s) with false
    end; cbv iota; rewrite Hscan; reflexivity.
Qed.


(** ** The decimal digits of a number *)

Lemma all_digits_uint (u : uint) :
  all_digits (NilEmpty.string_of_uint u) = true.
Proof. induction u; cbn [NilEmpty.string_of_uint all_digits]; auto. Qed.

Lemma all_digits_decimal (n : Z) : all_digits (JS.decimal n) = true.
Proof. apply all_digits_uint. Qed.

Lemma scan_decimal (n : Z) :
  (0 <= n)%Z ->
  JS.scan_digits 0 0 (JS.decimal n)
  = (n, String.length (JS.decimal n), EmptyString).
Proof.
  intros Hn. unfold JS.decimal. rewrite scan_digits_uint.
  change (Pos.of_uint (N.to_uint (Z.to_N n)))
    with (N.of_uint (N.to_uint (Z.to_N n))).
  rewrite DecimalN.Unsigned.of_to, Z2N.id by exact Hn. reflexivity.
Qed.

Lemma decimal_canonical (n : Z) :
  collapse_leading_zeros (JS.decimal n) = JS.decimal n.
Proof.
  destruct (decimal_of_scanned (JS.decimal n) (all_digits_decimal n))
    as [v [Hscan [Hv Hdec]]].
  destruct (Z.le_gt_cases 0 n) as [Hn | Hn].
  - rewrite (scan_decimal n Hn) in Hscan. congruence.
  - unfold JS.decimal. now replace (Z.to_N n) with 0%N by lia.
Qed.

Lemma scan_digits_app (s t : string) (acc : Z) (k : nat) :
  all_digits s = true ->
  JS.scan_digits acc k (s ++ t)
  = JS.scan_digits (fst (fst (JS.scan_digits acc k s)))
      (snd (fst (JS.scan_digits acc k s))) t.
Proof.
  revert acc k. induction s as [| c s IH]; intros acc k H; [reflexivity |].
  cbn [all_digits] in H. apply andb_true_iff in H. destruct H as [Hc Hs].
  cbn [append JS.scan_digits]. unfold JS.is_digit in Hc.
  destruct (JS.digit_val c); [now apply IH | discriminate Hc].
Qed.

(** The character of a digit. *)
Lemma decimal_digit (d : Z) :
  (0 <= d <= 9)%Z ->
  exists c : ascii,
    JS.decimal d = String c EmptyString /\ JS.digit_val c = Some d.
Proof.
  intros H.
  assert (d = 0 \/ d = 1 \/ d = 2 \/ d = 3 \/ d = 4 \/ d = 5 \/ d = 6 \/
          d = 7 \/ d = 8 \/ d = 9)%Z as Hd by lia.
  repeat (destruct Hd as [-> | Hd]); try subst d;
    eexists; split; reflexivity.
Qed.

Lemma strip_zeros_app (s t : string) :
  strip_zeros s <> EmptyString ->
  strip_zeros (s ++ t) = strip_zeros s ++ t.
Proof.
  induction s as [| c s IH]; cbn [strip_zeros append]; [congruence |].
  destruct (Ascii.eqb c "0"); [exact IH | reflexivity].
Qed.

Lemma decimal_positive_not_zero (n : Z) :
  (0 < n)%Z -> strip_zeros (JS.decimal n) <> EmptyString.
Proof.
  intros Hn E.
  pose proof (decimal_canonical n) as C. unfold collapse_leading_zeros in C.
  rewrite E in C.
  pose proof (scan_decimal n (Z.lt_le_incl _ _ Hn)) as S.
  rewrite <- C in S. cbn in S. injection S as S. lia.
Qed.

(** The digits of [10 n + d] are the digits of [n] followed by [d]. *)
Lemma decimal_snoc (n d : Z) :
  (0 < n)%Z -> (0 <= d <= 9)%Z ->
  JS.decimal (10 * n + d) = JS.decimal n ++ JS.decimal d.
Proof.
  intros Hn Hd. destruct (decimal_digit d Hd) as [c [-> Hc]].
  assert (all_digits (JS.decimal n ++ String c EmptyString) = true) as Hall.
  { pose proof (all_digits_decimal n) as A.
    induction (JS.decimal n) as [| a s IH]; cbn [append all_digits] in *.
    - unfold JS.is_digit. now rewrite Hc.
    - apply andb_true_iff in A. destruct A as [Ha As].
      now rewrite Ha, (IH As). }
  destruct (decimal_of_scanned _ Hall) as [v [Hscan [Hv Hdec]]].
  rewrite (scan_digits_app _ _ 0 0 (all_digits_decimal n)) in Hscan.
  rewrite (scan_decimal n) in Hscan by lia.
  cbn [fst snd JS.scan_digits] in Hscan. rewrite Hc in Hscan.
  injection Hscan as Hval _.
  replace (10 * n + d)%Z with v by lia. rewrite Hdec.
  unfold collapse_leading_zeros.
  rewrite (strip_zeros_app _ _ (decimal_positive_not_zero n Hn)).
  pose proof (decimal_canonical n) as C. unfold collapse_leading_zeros in C.
  pose proof (decimal_positive_not_zero n Hn) as Hnz.
  destruct (strip_zeros (JS.decimal n)) eqn:E; [congruence |].
  rewrite <- C. reflexivity.
Qed.

Lemma zeros_snoc (j : nat) : JS.zeros (S j) = JS.zeros j ++ "0".
Proof. induction j as [| j IH]; [reflexivity |]. cbn [JS.zeros append] in *. now rewrite <- IH. Qed.

(** The digits of [n * 10^j] are the digits of [n] followed by [j]
    zeros. *)
Lemma decimal_times_power (n : Z) (j : nat) :
  (0 < n)%Z ->
  JS.decimal (n * 10 ^ Z.of_nat j) = JS.decimal n ++ JS.zeros j.
Proof.
  intros Hn. induction j as [| j IH].
  - cbn [JS.zeros]. rewrite append_empty_r. f_equal. cbn. lia.
  - rewrite Nat2Z.inj_succ, Z.pow_succ_r by lia.
    assert (0 < 10 ^ Z.of_nat j)%Z by (apply Z.pow_pos_nonneg; lia).
    replace (n * (10 * 10 ^ Z.of_nat j))%Z
      with (10 * (n * 10 ^ Z.of_nat j) + 0)%Z by ring.
    rewrite decimal_snoc by lia. rewrite IH, zeros_snoc.
    now rewrite append_assoc.
Qed.

(** A number has [L] digits exactly when it lies between [10^(L-1)] and
    [10^L]. *)
Lemma decimal_length_bounds (L : nat) (n : Z) :
  (0 < n)%Z ->
  String.length (JS.decimal n) = S L <->
  (10 ^ Z.of_nat L <= n < 10 ^ Z.of_nat (S L))%Z.
Proof.
  revert n. induction L as [| L IH]; intros n Hn.
  - change (10 ^ Z.of_nat 0)%Z with 1%Z. change (10 ^ Z.of_nat 1)%Z with 10%Z.
    destruct (Z.lt_ge_cases n 10) as [Hs | Hb].
    + destruct (decimal_digit n) as [c [-> _]]; [lia |]. cbn. split; lia.
    + replace n with (10 * (n / 10) + n mod 10)%Z at 1
        by (symmetry; apply Z.div_mod; lia).
      pose proof (Z.mod_pos_bound n 10).
      assert (0 < n / 10)%Z by (apply Z.div_str_pos; lia).
      rewrite decimal_snoc, length_append by lia.
      destruct (decimal_digit (n mod 10)) as [c [-> _]]; [lia |].
      pose proof (decimal_not_empty (n / 10)).
      cbn [String.length]. split; lia.
  - assert (0 < 10 ^ Z.of_nat L)%Z by (apply Z.pow_pos_nonneg; lia).
    rewrite !Nat2Z.inj_succ, !Z.pow_succ_r by lia.
    rewrite Nat2Z.inj_succ, Z.pow_succ_r in IH by lia.
    destruct (Z.lt_ge_cases n 10) as [Hs | Hb].
    + destruct (decimal_digit n) as [c [-> _]]; [lia |]. cbn [String.length].
      split; [discriminate | nia].
    + replace n with (10 * (n / 10) + n mod 10)%Z at 1
        by (symmetry; apply Z.div_mod; lia).
      pose proof (Z.mod_pos_bound n 10).
      assert (0 < n / 10)%Z as Hq by (apply Z.div_str_pos; lia).
      rewrite decimal_snoc, length_append by lia.
      destruct (decimal_digit (n mod 10)) as [c [-> _]]; [lia |].
      cbn [String.length]. specialize (IH (n / 10)%Z Hq).
      pose proof (Z.div_mod n 10).
      split; intros H'.
      * assert (String.length (JS.decimal (n / 10)) = S L) as E by lia.
        apply IH in E. lia.
      * assert (10 ^ Z.of_nat L <= n / 10 < 10 * 10 ^ Z.of_nat L)%Z as B
          by (split; [apply Z.div_le_lower_bound | apply Z.div_lt_upper_bound]; lia).
        apply IH in B. lia.
Qed.

(** ** Printing an integer below 10^15 *)

Section PrintInteger.

Variable N : Z.
Variable m : positive.
Variable e : Z.
Hypothesis N_pos : (0 < N)%Z.
Hypothesis N_small : (N < 10 ^ 15)%Z.
Hypothesis N_float : JS.of_ratio false N 1 = S754_finite false m e.

Let L : Z := Z.of_nat (String.length (JS.decimal N)).

Lemma pow15_below_pow53 : (2 * 10 ^ 15 < 2 ^ 53)%Z.
Proof. reflexivity. Qed.

Lemma integer_digits_bounds :
  (1 <= L <= 15)%Z /\ (10 ^ (L - 1) <= N < 10 ^ L)%Z.
Proof.
  unfold L. pose proof (decimal_not_empty N) as Hne.
  destruct (String.length (JS.decimal N)) as [| l] eqn:E; [lia |].
  apply (decimal_length_bounds l N N_pos) in E.
  replace (Z.of_nat (S l) - 1)%Z with (Z.of_nat l) by lia.
  split; [| exact E]. split; [lia |].
  destruct (Z.le_gt_cases (Z.of_nat (S l)) 15) as [H | H]; [exact H |].
  assert (10 ^ 15 <= 10 ^ Z.of_nat l)%Z by (apply Z.pow_le_mono_r; lia).
  lia.
Qed.

Lemma float_value : (e <= 0)%Z /\ Zpos m = (N * 2 ^ (- e))%Z.
Proof.
  pose proof pow15_below_pow53.
  destruct (of_ratio_integer N) as [m' [e' [E [He Hm]]]]; [lia |].
  rewrite N_float in E. injection E as -> ->. now split.
Qed.

(** Reading an integer below 2^53 gives the number of [N] only for [N]
    itself. *)
Lemma reads_back_integer (c j : Z) :
  (0 < c)%Z -> (0 <= j <= 15)%Z -> (c * 10 ^ j < 2 ^ 53)%Z ->
  JS.reads_back m e c j = (c * 10 ^ j =? N)%Z.
Proof.
  intros Hc Hj Hlt. unfold JS.reads_back, JS.of_decimal.
  assert (0 < 10 ^ j)%Z as Hpow by (apply Z.pow_pos_nonneg; lia).
  replace (c <=? 0)%Z with false by (symmetry; apply Z.leb_gt; lia).
  replace (400 <? j)%Z with false by (symmetry; apply Z.ltb_ge; lia).
  replace (j + Z.of_nat (String.length (JS.decimal c)) <? -400)%Z
    with false by (symmetry; apply Z.ltb_ge; lia).
  replace (0 <=? j)%Z with true by (symmetry; apply Z.leb_le; lia).
  destruct (of_ratio_integer (c * 10 ^ j)) as [m' [e' [E [He Hm]]]];
    [nia |].
  rewrite E. destruct float_value as [He0 Hm0].
  destruct (Z.eqb_spec (c * 10 ^ j) N) as [Heq | Hne].
  - rewrite Heq, N_float in E. injection E as -> ->.
    now rewrite Pos.eqb_refl, Z.eqb_refl.
  - destruct (Pos.eqb_spec m' m) as [-> | _]; [| reflexivity].
    destruct (Z.eqb_spec e' e) as [-> | _]; [| reflexivity].
    exfalso. apply Hne.
    assert (0 < 2 ^ (- e))%Z by (apply Z.pow_pos_nonneg; lia).
    nia.
Qed.

Variable den : Z.
Hypothesis den_pos : (0 < den)%Z.

(** The candidates with [k] digits: only the exact quotient can be read
    back. *)
Lemma digits_at_integer (k : Z) :
  (1 <= k <= L)%Z ->
  JS.digits_at m e (N * den) den L k
  = if (N mod 10 ^ (L - k) =? 0)%Z then Some (N / 10 ^ (L - k))%Z else None.
Proof.
  intros Hk. destruct integer_digits_bounds as [HL [Hlow Hhigh]].
  pose proof pow15_below_pow53 as H53.
  set (j := (L - k)%Z).
  assert (0 < 10 ^ j)%Z as Hpow by (apply Z.pow_pos_nonneg; lia).
  assert (10 ^ j <= 10 ^ (L - 1))%Z as Hjle
    by (apply Z.pow_le_mono_r; lia).
  assert (10 ^ j <= 10 ^ 15)%Z as Hj15 by (apply Z.pow_le_mono_r; lia).
  pose proof (Z.div_mod N (10 ^ j)) as Hdm.
  pose proof (Z.mod_pos_bound N (10 ^ j) Hpow) as Hmod.
  assert (1 <= N / 10 ^ j)%Z as Hlo
    by (apply Z.div_le_lower_bound; lia).
  assert (exists a b : Z,
            JS.scaled (N * den) den (k - L) = (a, b) /\
            (a / b = N / 10 ^ j)%Z /\
            (a mod b = den * (N mod 10 ^ j))%Z) as [a [b [Esc [Hq Hr]]]].
  { unfold JS.scaled. destruct (Z.leb_spec 0 (k - L)) as [H0 | H0].
    - assert (j = 0)%Z as Ej by lia.
      replace (k - L)%Z with 0%Z by lia. rewrite Ej.
      change (10 ^ 0)%Z with 1%Z.
      exists (N * den * 1)%Z, den. split; [reflexivity |].
      rewrite Z.mul_1_r, Z.div_1_r, Z.mod_1_r, Z.mul_0_r.
      split; [apply Z.div_mul | apply Z.mod_mul]; lia.
    - replace (- (k - L))%Z with j by lia.
      exists (N * den)%Z, (den * 10 ^ j)%Z. split; [reflexivity |].
      rewrite (Z.mul_comm N den). split.
      + apply Z.div_mul_cancel_l; lia.
      + apply Z.mul_mod_distr_l; lia. }
  unfold JS.digits_at. rewrite Esc, Hq, Hr. cbv zeta.
  replace (L - k)%Z with j by reflexivity.
  rewrite !reads_back_integer by nia.
  replace ((N / 10 ^ j + 1) * 10 ^ j =? N)%Z with false
    by (symmetry; apply Z.eqb_neq; nia).
  rewrite andb_false_r. cbn [andb].
  destruct (Z.eqb_spec (N mod 10 ^ j) 0) as [Hz | Hnz].
  - replace (N / 10 ^ j * 10 ^ j =? N)%Z with true
      by (symmetry; apply Z.eqb_eq; nia).
    reflexivity.
  - replace (N / 10 ^ j * 10 ^ j =? N)%Z with false
      by (symmetry; apply Z.eqb_neq; nia).
    reflexivity.
Qed.

(** The search ends, on some [k] up to [L], with the quotient of [N] by a
    power of ten that divides it. *)
Lemma shortest_from_integer (fuel : nat) (k : Z) :
  (1 <= k <= L)%Z -> (L - k < Z.of_nat fuel)%Z ->
  exists s k1 : Z,
    JS.shortest_from fuel m e (N * den) den L k = (s, k1) /\
    (k <= k1 <= L)%Z /\ (s * 10 ^ (L - k1) = N)%Z.
Proof.
  revert k. induction fuel as [| fuel IH]; intros k Hk Hfuel; [lia |].
  cbn [JS.shortest_from]. rewrite (digits_at_integer k Hk).
  assert (0 < 10 ^ (L - k))%Z as Hpow by (apply Z.pow_pos_nonneg; lia).
  destruct (Z.eqb_spec (N mod 10 ^ (L - k)) 0) as [Hz | Hnz].
  - exists (N / 10 ^ (L - k))%Z, k. split; [reflexivity |].
    split; [lia |].
    pose proof (Z.div_mod N (10 ^ (L - k))). nia.
  - assert (k < L)%Z as Hlt.
    { destruct (Z.eq_dec k L) as [-> | Hne]; [| lia].
      exfalso. apply Hnz. rewrite Z.sub_diag. apply Z.mod_1_r. }
    destruct (IH (k + 1)%Z) as [s [k1 [E [Hk1 Hs]]]]; [lia | lia |].
    exists s, k1. split; [exact E |]. split; [lia | exact Hs].
Qed.

End PrintInteger.

Lemma length_zeros (j : nat) : String.length (JS.zeros j) = j.
Proof. induction j as [| j IH]; cbn; [reflexivity | now rewrite IH]. Qed.

(** The digits of Number::toString for an integer [N] below 10^15: some
    [s] with [s * 10^j = N], and as exponent the number of digits of [N]. *)
Lemma shortest_integer (N : Z) (m : positive) (e : Z) :
  (0 < N < 10 ^ 15)%Z ->
  JS.of_ratio false N 1 = S754_finite false m e ->
  exists s : Z,
    JS.shortest m e
    = (JS.decimal s, Z.of_nat (String.length (JS.decimal N))) /\
    (0 < s)%Z /\
    (Z.of_nat (String.length (JS.decimal s))
     <= Z.of_nat (String.length (JS.decimal N)))%Z /\
    (s * 10 ^ (Z.of_nat (String.length (JS.decimal N))
               - Z.of_nat (String.length (JS.decimal s))) = N)%Z /\
    JS.decimal N
    = JS.decimal s
      ++ JS.zeros (Z.to_nat (Z.of_nat (String.length (JS.decimal N))
                             - Z.of_nat (String.length (JS.decimal s)))).
Proof.
  intros [Hpos Hsmall] E. pose proof pow15_below_pow53 as H53.
  destruct (float_value N m e Hpos Hsmall E) as [He Hm].
  unfold JS.shortest.
  destruct (integer_digits_bounds N Hpos Hsmall) as [HL [Hlow Hhigh]].
  set (L := Z.of_nat (String.length (JS.decimal N))) in *.
  assert (exists den : Z, (0 < den)%Z /\ JS.ratio_of m e = (N * den, den)%Z)
    as [den [Hden ->]].
  { unfold JS.ratio_of. destruct (Z.leb_spec 0 e) as [H0 | H0].
    - assert (e = 0)%Z as E0 by lia. rewrite E0 in *. exists 1%Z.
      split; [lia |]. rewrite Hm. f_equal. cbn. lia.
    - exists (2 ^ (- e))%Z. split; [apply Z.pow_pos_nonneg; lia |].
      now rewrite Hm. }
  assert (JS.decimal_exponent (N * den) den = L) as ->.
  { unfold JS.decimal_exponent.
    replace (den <=? N * den)%Z with true by (symmetry; apply Z.leb_le; nia).
    rewrite Z.div_mul by lia. reflexivity. }
  destruct (shortest_from_integer N m e Hpos Hsmall E den Hden 17 1)
    as [s [k1 [Esf [Hk1 Hs]]]]; [fold L; lia | fold L; lia |].
  fold L in Esf, Hk1, Hs. rewrite Esf.
  assert (0 < 10 ^ (L - k1))%Z as Hpow by (apply Z.pow_pos_nonneg; lia).
  assert (10 ^ L = 10 ^ k1 * 10 ^ (L - k1))%Z as Hsplit
    by (rewrite <- Z.pow_add_r by lia; f_equal; lia).
  assert (0 < s)%Z as Hspos by nia.
  replace (s =? 10 ^ k1)%Z with false by (symmetry; apply Z.eqb_neq; nia).
  assert (JS.decimal N = JS.decimal s ++ JS.zeros (Z.to_nat (L - k1)))
    as Hdec.
  { rewrite <- decimal_times_power by lia. f_equal.
    rewrite Z2Nat.id by lia. lia. }
  assert (Z.of_nat (String.length (JS.decimal s)) = k1) as Hlen.
  { apply (f_equal String.length) in Hdec.
    rewrite length_append, length_zeros in Hdec. unfold L. lia. }
  exists s. rewrite Hlen. repeat split; try assumption; lia.
Qed.

(** The string of an integer below 10^15 is its decimal digits. *)
Lemma ToString_integer (N : Z) :
  (0 < N < 10 ^ 15)%Z ->
  JS.ToString (JS.of_ratio false N 1) = JS.decimal N.
Proof.
  intros HN. pose proof pow15_below_pow53 as H53.
  destruct (of_ratio_integer N) as [m [e [E _]]]; [lia |].
  rewrite E. unfold JS.ToString.
  destruct (shortest_integer N m e HN E) as [s [-> [Hs [Hle [_ Hdec]]]]].
  destruct (integer_digits_bounds N) as [HL _]; [lia | lia |].
  cbn [JS.minus_sign append]. unfold JS.layout.
  replace ((Z.of_nat (String.length (JS.decimal s))
            <=? Z.of_nat (String.length (JS.decimal N)))%Z
           && (Z.of_nat (String.length (JS.decimal N)) <=? 21)%Z)
    with true
    by (symmetry; apply andb_true_iff; split; apply Z.leb_le; lia).
  symmetry. exact Hdec.
Qed.

(** ** The main line of a typed integer *)

(** An integer below 10^15 is printed in groups of three digits, with the
    sign of its number. *)
Lemma toLocaleString_finite_integer
    (neg : bool) (N : Z) (m : positive) (e : Z) :
  (0 < N < 10 ^ 15)%Z ->
  JS.of_ratio false N 1 = S754_finite false m e ->
  JS.toLocaleString (S754_finite neg m e)
  = JS.minus_sign neg ++ JS.group3 (JS.decimal N).
Proof.
  intros HN E. unfold JS.toLocaleString.
  destruct (shortest_integer N m e HN E) as [s [-> [Hs [Hle [Hval _]]]]].
  unfold JS.round_decimal.
  rewrite (scan_decimal s) by lia. cbn [fst].
  replace (Z.of_nat (String.length (JS.decimal s))
           <=? Z.of_nat (String.length (JS.decimal N)))%Z
    with true by (symmetry; apply Z.leb_le; lia).
  now rewrite Hval.
Qed.

Lemma toLocaleString_integer (n : Z) :
  (0 <= n < 10 ^ 15)%Z ->
  JS.toLocaleString (JS.of_decimal false n 0) = JS.group3 (JS.decimal n).
Proof.
  intros [H0 Hlt]. pose proof pow15_below_pow53 as H53.
  unfold JS.of_decimal.
  destruct (Z.leb_spec n 0) as [Hz | Hpos].
  - assert (n = 0)%Z as -> by lia. reflexivity.
  - change (400 <? 0)%Z with false. cbv iota.
    replace (0 + Z.of_nat (String.length (JS.decimal n)) <? -400)%Z
      with false by (symmetry; apply Z.ltb_ge; lia).
    change (0 <=? 0)%Z with true. cbv iota.
    replace (n * 10 ^ 0)%Z with n by (cbn; lia).
    destruct (of_ratio_integer n) as [m [e [E _]]]; [lia |].
    rewrite E. now apply (toLocaleString_finite_integer false n).
Qed.

(** The main line of up to 15 digits: their value, with a comma between
    groups of three digits. *)
Lemma main_line_of_digits (d : string) :
  all_digits d = true ->
  1 <= String.length d <= 15 ->
  formatDisplayValue d = JS.group3 (collapse_leading_zeros d).
Proof.
  intros Hall [Hmin Hmax].
  destruct (decimal_of_scanned d Hall) as [n [Hscan [Hn Hdec]]].
  assert (n < 10 ^ 15)%Z as Hlt.
  { pose proof (scan_digits_bound d 0 0 (Z.le_refl 0)) as B.
    rewrite Hscan in B. cbn [fst] in B.
    assert (10 ^ Z.of_nat (String.length d) <= 10 ^ 15)%Z
      by (apply Z.pow_le_mono_r; lia).
    lia. }
  unfold formatDisplayValue.
  rewrite (digits_hold_no_Infinity d Hall).
  rewrite (split_without_separator "." d (count_dot_digits d Hall)).
  rewrite (parseFloat_digits d n Hall); [| | exact Hscan].
  - rewrite toLocaleString_integer by lia. now rewrite Hdec.
  - intros ->. cbn in Hmin. lia.
Qed.

Lemma length_take (n : nat) (s : string) :
  String.length (JS.take n s) = Nat.min n (String.length s).
Proof.
  revert s. induction n as [| n IH]; intros [| c s]; cbn; try reflexivity.
  now rewrite IH.
Qed.

(** The operand left by typed digits is in canonical form. *)
Lemma typed_operand_canonical (typed : string) :
  1 <= String.length (typed_operand typed) <= 15 /\
  collapse_leading_zeros (typed_operand typed) = typed_operand typed.
Proof.
  unfold typed_operand, collapse_leading_zeros.
  induction typed as [| c typed IH]; [cbn; split; [lia | reflexivity] |].
  cbn [strip_zeros]. destruct (Ascii.eqb c "0") eqn:E; [exact IH |].
  change (JS.take 15 (String c typed)) with (String c (JS.take 14 typed)).
  cbn [strip_zeros String.length]. rewrite E, length_take. split; [lia |].
  reflexivity.
Qed.

(** X17.  A display of one to fifteen digits is shown as its value with a
    comma between groups of three digits (so without leading zeros): the
    digits are read and printed without rounding. *)
Theorem digits_are_shown_grouped (d : string) :
  all_digits d = true ->
  1 <= String.length d <= 15 ->
  formatDisplayValue d = JS.group3 (collapse_leading_zeros d).
Proof.
  intros Hall [Hmin Hmax].
  destruct (decimal_of_scanned d Hall) as [n [Hscan [Hn Hdec]]].
  assert (n < 10 ^ 15)%Z as Hlt.
  { pose proof (scan_digits_bound d 0 0 (Z.le_refl 0)) as B.
    rewrite Hscan in B. cbn [fst] in B.
    assert (10 ^ Z.of_nat (String.length d) <= 10 ^ 15)%Z
      by (apply Z.pow_le_mono_r; lia).
    lia. }
  unfold formatDisplayValue.
  rewrite (digits_hold_no_Infinity d Hall).
  rewrite (split_without_separator "." d (count_dot_digits d Hall)).
  rewrite (parseFloat_digits d n Hall); [| | exact Hscan].
  - rewrite toLocaleString_integer by lia. now rewrite Hdec.
  - intros ->. cbn in Hmin. lia.
Qed.

Lemma digits_are_shown_grouped_witness :
  all_digits "999999999999999" = true /\
  1 <= String.length "999999999999999" <= 15 /\
  formatDisplayValue "999999999999999" = "999,999,999,999,999".
Proof.
  split; [reflexivity |]. split; [cbn; lia |].
  apply (digits_are_shown_grouped "999999999999999" eq_refl).
  cbn; lia.
Defined.

(** X18.  Typing digits into the initial state shows the typed number, with
    leading zeros collapsed, at most 15 digits and a comma between groups of
    three digits, over an empty secondary line; a click on an operator then
    repeats it on the secondary line, followed by a space and the
    operator. *)
Theorem typed_integer_is_shown_grouped (typed : string) (op : Operation) :
  all_digits typed = true ->
  render (clicks (labels_of typed) initialState)
  = (JS.group3 (typed_operand typed), EmptyString) /\
  render (clicks (labels_of typed ++ [symbol op])%list initialState)
  = (JS.group3 (typed_operand typed),
     JS.group3 (typed_operand typed) ++ " " ++ symbol op).
Proof.
  intros Hall.
  destruct (typed_operand_canonical typed) as [Hlen Hcan].
  pose proof (main_line_of_digits (typed_operand typed)
                (all_digits_typed_operand typed Hall) Hlen) as Hmain.
  rewrite Hcan in Hmain.
  rewrite clicks_append. change initialState with (showing "0").
  rewrite (typing_from_zero typed Hall). fold (typed_operand typed).
  split.
  - unfold render. cbn [displayValue history showing fst]. now rewrite Hmain.
  - cbn [clicks fold_left]. rewrite click_operator.
    unfold render, performOperation.
    cbn [previousValue displayValue history showing]. now rewrite Hmain.
Qed.

Lemma typed_integer_is_shown_grouped_witness :
  all_digits "0012345" = true /\
  render (clicks ["0"; "0"; "1"; "2"; "3"; "4"; "5"; "×"] initialState)
  = ("12,345", "12,345 ×").
Proof.
  split; [reflexivity |].
  exact (proj2 (typed_integer_is_shown_grouped "0012345" Times eq_refl)).
Defined.

(** ** Exact results of the binary64 operations on integers *)

Lemma iter_pos_nat {A : Type} (f : A -> A) (p : positive) (x : A) :
  iter_pos f p x = Nat.iter (Pos.to_nat p) f x.
Proof.
  revert x. induction p as [p IH | p IH |]; intros x; cbn [iter_pos].
  - rewrite !IH, Pos2Nat.inj_xI.
    replace (S (2 * Pos.to_nat p)) with (Pos.to_nat p + S (Pos.to_nat p))
      by lia.
    rewrite Nat.iter_add. f_equal. now rewrite Nat.iter_succ_r.
  - rewrite !IH, Pos2Nat.inj_xO.
    replace (2 * Pos.to_nat p) with (Pos.to_nat p + Pos.to_nat p) by lia.
    now rewrite Nat.iter_add.
  - reflexivity.
Qed.

(** Shifting out zero bits loses nothing. *)
Lemma shr_exact (n : nat) (h : positive) :
  Nat.iter n shr_1
    {| shr_m := Zpos h * 2 ^ Z.of_nat n; shr_r := false; shr_s := false |}
  = {| shr_m := Zpos h; shr_r := false; shr_s := false |}.
Proof.
  revert h. induction n as [| n IH]; intros h.
  - change (2 ^ Z.of_nat 0)%Z with 1%Z. now rewrite Z.mul_1_r.
  - rewrite Nat.iter_succ.
    replace (Zpos h * 2 ^ Z.of_nat (S n))%Z
      with (Zpos h~0 * 2 ^ Z.of_nat n)%Z
      by (rewrite Nat2Z.inj_succ, Z.pow_succ_r, (Pos2Z.inj_xO h) by lia;
          ring).
    rewrite IH. reflexivity.
Qed.

(** The number of an integer [N] below 2^53, with sign [neg], from any
    mantissa and exponent that denote it exactly and leave no bit to shift
    in. *)
Lemma round_exact (neg : bool) (N M E : Z) :
  (0 < N < 2 ^ 53)%Z ->
  M = (N * 2 ^ (- E))%Z ->
  (E <= Z.log2 N - 52)%Z ->
  binary_round_aux JS.prec JS.emax neg M E loc_Exact
  = S754_finite neg (Z.to_pos (N * 2 ^ (52 - Z.log2 N))) (Z.log2 N - 52).
Proof.
  intros [Hpos Hlt] HM HE.
  pose proof (Z.log2_nonneg N) as Hlog0.
  assert (Z.log2 N < 53)%Z as Hlog by (apply Z.log2_lt_pow2; lia).
  set (l := Z.log2 N) in *.
  set (h := (N * 2 ^ (52 - l))%Z).
  assert (0 < 2 ^ (52 - l))%Z as Hpow by (apply Z.pow_pos_nonneg; lia).
  assert (0 < h)%Z as Hh by (unfold h; lia).
  assert (Z.log2 h = 52)%Z as Hlogh.
  { unfold h. rewrite Z.log2_mul_pow2 by lia. fold l. lia. }
  set (sh := (l - 52 - E)%Z).
  assert (M = h * 2 ^ sh)%Z as HMh.
  { rewrite HM. unfold h. rewrite <- Z.mul_assoc, <- Z.pow_add_r by lia.
    do 2 f_equal. lia. }
  assert (0 < 2 ^ sh)%Z as Hpowsh by (apply Z.pow_pos_nonneg; lia).
  assert (Z.log2 M = 52 + sh)%Z as HlogM.
  { rewrite HMh, Z.log2_mul_pow2 by lia. lia. }
  destruct h as [| hp | hp] eqn:Eh; try lia.
  assert (shr_fexp JS.prec JS.emax M E loc_Exact
          = ({| shr_m := Zpos hp; shr_r := false; shr_s := false |},
             (l - 52)%Z)) as Hshr1.
  { unfold shr_fexp. rewrite Zdigits2_log2 by nia. rewrite HlogM.
    rewrite fexp_normal by lia.
    replace (52 + sh + 1 + E - 53 - E)%Z with sh by lia.
    unfold shr. destruct sh as [| p | p] eqn:Es; try lia.
    - cbn [shr_record_of_loc]. f_equal; [| lia]. f_equal.
      rewrite HMh. cbn. lia.
    - rewrite iter_pos_nat. cbn [shr_record_of_loc]. rewrite HMh.
      rewrite <- (positive_nat_Z p). rewrite shr_exact.
      f_equal. rewrite positive_nat_Z. lia. }
  assert (shr_fexp JS.prec JS.emax (Zpos hp) (l - 52) loc_Exact
          = ({| shr_m := Zpos hp; shr_r := false; shr_s := false |},
             (l - 52)%Z)) as Hshr2.
  { unfold shr_fexp. rewrite Zdigits2_log2 by lia. rewrite Hlogh.
    rewrite fexp_normal by lia.
    replace (52 + 1 + (l - 52) - 53 - (l - 52))%Z with 0%Z by lia.
    reflexivity. }
  unfold binary_round_aux. rewrite Hshr1.
  cbn [shr_m shr_r shr_s loc_of_shr_record round_nearest_even].
  rewrite Hshr2. cbn [shr_m].
  replace (l - 52 <=? JS.emax - JS.prec)%Z with true
    by (symmetry; apply Z.leb_le; unfold JS.emax, JS.prec; lia).
  reflexivity.
Qed.

Lemma of_ratio_canonical (neg : bool) (N : Z) :
  (0 < N < 2 ^ 53)%Z ->
  JS.of_ratio neg N 1
  = S754_finite neg (Z.to_pos (N * 2 ^ (52 - Z.log2 N))) (Z.log2 N - 52).
Proof.
  intros [Hpos Hlt].
  pose proof (Z.log2_nonneg N) as Hlog0.
  assert (Z.log2 N < 53)%Z as Hlog by (apply Z.log2_lt_pow2; lia).
  unfold JS.of_ratio.
  replace (N <=? 0)%Z with false by (symmetry; apply Z.leb_gt; lia).
  assert (SFdiv_core_binary JS.prec JS.emax N 0 1 0
          = ((N * 2 ^ (53 - Z.log2 N))%Z, (Z.log2 N - 53)%Z, loc_Exact))
    as ->.
  { unfold SFdiv_core_binary. rewrite Zdigits2_log2 by lia.
    change (Zdigits2 1) with 1%Z. cbv zeta.
    rewrite fexp_normal by lia.
    replace (Z.min (Z.log2 N + 1 + 0 - (1 + 0) - 53) (0 - 0))
      with (Z.log2 N - 53)%Z by lia.
    replace (0 - 0 - (Z.log2 N - 53))%Z with (53 - Z.log2 N)%Z by lia.
    assert (exists s : positive, (53 - Z.log2 N)%Z = Zpos s) as [s Es]
      by (destruct (53 - Z.log2 N)%Z as [| s | s] eqn:Es; try lia;
          now exists s).
    rewrite Es. rewrite Z.shiftl_mul_pow2 by lia.
    rewrite div_eucl_by_one. reflexivity. }
  apply round_exact; [lia | | lia].
  do 2 f_equal. lia.
Qed.

(** ** Arithmetic on integers below 2^53 *)

Lemma integer_number_zero : integer_number 0 = S754_zero false.
Proof. reflexivity. Qed.

Lemma integer_number_canonical (z : Z) :
  (0 < Z.abs z < 2 ^ 53)%Z ->
  integer_number z
  = S754_finite (z <? 0)%Z
      (Z.to_pos (Z.abs z * 2 ^ (52 - Z.log2 (Z.abs z))))
      (Z.log2 (Z.abs z) - 52).
Proof.
  intros H. unfold integer_number, JS.of_decimal.
  replace (Z.abs z <=? 0)%Z with false by (symmetry; apply Z.leb_gt; lia).
  change (400 <? 0)%Z with false. cbv iota.
  replace (0 + Z.of_nat (String.length (JS.decimal (Z.abs z))) <? -400)%Z
    with false by (symmetry; apply Z.ltb_ge; lia).
  change (0 <=? 0)%Z with true. cbv iota.
  replace (Z.abs z * 10 ^ 0)%Z with (Z.abs z)
    by (change (10 ^ 0)%Z with 1%Z; lia).
  now apply of_ratio_canonical.
Qed.

(** The mantissa of the number of an integer. *)
Lemma canonical_mantissa_value (N : Z) :
  (0 < N < 2 ^ 53)%Z ->
  Zpos (Z.to_pos (N * 2 ^ (52 - Z.log2 N))) = (N * 2 ^ (52 - Z.log2 N))%Z.
Proof.
  intros [Hpos Hlt].
  assert (Z.log2 N < 53)%Z by (apply Z.log2_lt_pow2; lia).
  assert (0 < 2 ^ (52 - Z.log2 N))%Z by (apply Z.pow_pos_nonneg; lia).
  apply Z2Pos.id. lia.
Qed.

Lemma iter_xO_value (p d : positive) :
  Zpos (Pos.iter xO p d) = (Zpos p * 2 ^ Zpos d)%Z.
Proof.
  induction d as [| d IH] using Pos.peano_ind.
  - cbn [Pos.iter]. rewrite Pos2Z.inj_xO. change (2 ^ 1)%Z with 2%Z. lia.
  - rewrite Pos.iter_succ, Pos2Z.inj_xO, IH, Pos2Z.inj_succ.
    rewrite Z.pow_succ_r by lia. ring.
Qed.

Lemma shl_align_value (mx : positive) (ex ez : Z) :
  (ez <= ex)%Z ->
  Zpos (fst (shl_align mx ex ez)) = (Zpos mx * 2 ^ (ex - ez))%Z.
Proof.
  intros H. unfold shl_align.
  destruct (ez - ex)%Z as [| d | d] eqn:E; try lia; cbn [fst].
  - replace (ex - ez)%Z with 0%Z by lia. change (2 ^ 0)%Z with 1%Z. lia.
  - rewrite iter_xO_value. do 2 f_equal. lia.
Qed.

(** Rounding a mantissa and an exponent that denote an integer [N] below
    2^53 exactly gives the number of [N]. *)
Lemma binary_round_exact (neg : bool) (N : Z) (mx : positive) (ex : Z) :
  (0 < N < 2 ^ 53)%Z -> (ex <= 0)%Z -> Zpos mx = (N * 2 ^ (- ex))%Z ->
  binary_round JS.prec JS.emax neg mx ex
  = S754_finite neg (Z.to_pos (N * 2 ^ (52 - Z.log2 N))) (Z.log2 N - 52).
Proof.
  intros HN Hex Hmx.
  pose proof (Z.log2_nonneg N) as Hlog0.
  assert (Z.log2 N < 53)%Z as Hlog by (apply Z.log2_lt_pow2; lia).
  assert (0 < 2 ^ (- ex))%Z as Hpow by (apply Z.pow_pos_nonneg; lia).
  unfold binary_round.
  change (Zpos (digits2_pos mx)) with (Zdigits2 (Zpos mx)).
  rewrite Zdigits2_log2 by lia.
  rewrite Hmx at 1. rewrite Z.log2_mul_pow2 by lia.
  rewrite fexp_normal by lia.
  replace (- ex + Z.log2 N + 1 + ex - 53)%Z with (Z.log2 N - 52)%Z by lia.
  unfold shl_align.
  destruct (Z.log2 N - 52 - ex)%Z as [| d | d] eqn:E.
  - apply round_exact; [exact HN | exact Hmx | lia].
  - apply round_exact; [exact HN | exact Hmx | lia].
  - apply round_exact; [exact HN | | lia].
    rewrite iter_xO_value, Hmx, <- Z.mul_assoc, <- Z.pow_add_r by lia.
    do 2 f_equal. lia.
Qed.

Section IntegerOperands.

Variables x y : Z.
Hypothesis x_range : (0 < x < 2 ^ 53)%Z.
Hypothesis y_range : (0 < y < 2 ^ 53)%Z.

Let lx := Z.log2 x.
Let ly := Z.log2 y.
Let mx := Z.to_pos (x * 2 ^ (52 - lx)).
Let my := Z.to_pos (y * 2 ^ (52 - ly)).

Lemma operand_logs : (0 <= lx < 53)%Z /\ (0 <= ly < 53)%Z.
Proof.
  unfold lx, ly. repeat split;
    solve [apply Z.log2_nonneg | apply Z.log2_lt_pow2; lia].
Qed.

(** The mantissas of the two operands, brought to the smaller exponent. *)
Lemma aligned_mantissas :
  Zpos (fst (shl_align mx (lx - 52) (Z.min (lx - 52) (ly - 52))))
  = (x * 2 ^ (- Z.min (lx - 52) (ly - 52)))%Z /\
  Zpos (fst (shl_align my (ly - 52) (Z.min (lx - 52) (ly - 52))))
  = (y * 2 ^ (- Z.min (lx - 52) (ly - 52)))%Z.
Proof.
  destruct operand_logs as [Hx Hy].
  split; rewrite shl_align_value by lia; unfold mx, my;
    rewrite canonical_mantissa_value by lia;
    fold lx ly; rewrite <- Z.mul_assoc, <- Z.pow_add_r by lia;
    do 2 f_equal; lia.
Qed.

Lemma add_integers :
  (x + y < 2 ^ 53)%Z ->
  JS.add (integer_number x) (integer_number y) = integer_number (x + y).
Proof.
  intros Hsum. destruct operand_logs as [Hx Hy].
  destruct aligned_mantissas as [Ax Ay].
  rewrite !integer_number_canonical by lia.
  replace (x <? 0)%Z with false by (symmetry; apply Z.ltb_ge; lia).
  replace (y <? 0)%Z with false by (symmetry; apply Z.ltb_ge; lia).
  replace (x + y <? 0)%Z with false by (symmetry; apply Z.ltb_ge; lia).
  rewrite !Z.abs_eq by lia. fold lx ly mx my.
  unfold JS.add, SFadd. cbn [cond_Zopp].
  set (ez := Z.min (lx - 52) (ly - 52)) in *.
  assert (0 < 2 ^ (- ez))%Z as Hpow by (apply Z.pow_pos_nonneg; lia).
  unfold binary_normalize.
  destruct (Zpos (fst (shl_align mx (lx - 52) ez))
            + Zpos (fst (shl_align my (ly - 52) ez)))%Z
    as [| s | s] eqn:Es; try lia.
  apply binary_round_exact; [lia | lia |].
  rewrite <- Es, Ax, Ay. ring.
Qed.

Lemma sub_integers :
  JS.sub (integer_number x) (integer_number y) = integer_number (x - y).
Proof.
  destruct operand_logs as [Hx Hy].
  destruct aligned_mantissas as [Ax Ay].
  rewrite (integer_number_canonical x), (integer_number_canonical y) by lia.
  replace (x <? 0)%Z with false by (symmetry; apply Z.ltb_ge; lia).
  replace (y <? 0)%Z with false by (symmetry; apply Z.ltb_ge; lia).
  rewrite (Z.abs_eq x), (Z.abs_eq y) by lia. fold lx ly mx my.
  unfold JS.sub, SFsub. cbn [cond_Zopp].
  set (ez := Z.min (lx - 52) (ly - 52)) in *.
  assert (0 < 2 ^ (- ez))%Z as Hpow by (apply Z.pow_pos_nonneg; lia).
  unfold binary_normalize.
  destruct (Zpos (fst (shl_align mx (lx - 52) ez))
            - Zpos (fst (shl_align my (ly - 52) ez)))%Z
    as [| s | s] eqn:Es.
  - assert (x = y) as -> by nia. now rewrite Z.sub_diag.
  - assert (0 < x - y)%Z by nia.
    rewrite integer_number_canonical by lia.
    replace (x - y <? 0)%Z with false by (symmetry; apply Z.ltb_ge; lia).
    rewrite Z.abs_eq by lia.
    apply binary_round_exact; [lia | lia |].
    rewrite <- Es, Ax, Ay. ring.
  - assert (x - y < 0)%Z by nia.
    rewrite integer_number_canonical by lia.
    replace (x - y <? 0)%Z with true by (symmetry; apply Z.ltb_lt; lia).
    replace (Z.abs (x - y)) with (y - x)%Z by lia.
    apply binary_round_exact; [lia | lia |].
    assert (Zpos s = - Zneg s)%Z as -> by reflexivity.
    rewrite <- Es, Ax, Ay. ring.
Qed.

Lemma mul_integers :
  (x * y < 2 ^ 53)%Z ->
  JS.mul (integer_number x) (integer_number y) = integer_number (x * y).
Proof.
  intros Hprod. destruct operand_logs as [Hx Hy].
  assert (0 < x * y)%Z as Hpos by nia.
  rewrite !integer_number_canonical by lia.
  replace (x <? 0)%Z with false by (symmetry; apply Z.ltb_ge; lia).
  replace (y <? 0)%Z with false by (symmetry; apply Z.ltb_ge; lia).
  replace (x * y <? 0)%Z with false by (symmetry; apply Z.ltb_ge; lia).
  rewrite !Z.abs_eq by lia. fold lx ly mx my.
  unfold JS.mul, SFmul. cbn [xorb].
  pose proof (Z.log2_mul_below x y) as Hbelow.
  assert (0 < 2 ^ (52 - lx))%Z by (apply Z.pow_pos_nonneg; lia).
  assert (0 < 2 ^ (52 - ly))%Z by (apply Z.pow_pos_nonneg; lia).
  apply round_exact; [lia | | fold lx ly in Hbelow; lia].
  rewrite Pos2Z.inj_mul. unfold mx, my.
  rewrite !canonical_mantissa_value by lia. fold lx ly.
  replace (- (lx - 52 + (ly - 52)))%Z with ((52 - lx) + (52 - ly))%Z by lia.
  rewrite Z.pow_add_r by lia. ring.
Qed.

End IntegerOperands.

Lemma pow15_below_pow53' : (10 ^ 15 < 2 ^ 53)%Z.
Proof. reflexivity. Qed.

(** [calculate] on the numbers of two integers is the number of the integer
    result, for a sum, a difference and a product below 2^53. *)
Lemma calculate_integers (op : Operation) (x y : Z) :
  (0 <= x < 2 ^ 53)%Z -> (0 <= y < 2 ^ 53)%Z ->
  (Z.abs (integer_result op x y) < 2 ^ 53)%Z ->
  op <> Divide ->
  calculate (integer_number x) (integer_number y) op
  = integer_number (integer_result op x y).
Proof.
  intros Hx Hy HR Hop.
  assert (forall z : Z, (0 < z < 2 ^ 53)%Z ->
            integer_number z
            = S754_finite false
                (Z.to_pos (z * 2 ^ (52 - Z.log2 z))) (Z.log2 z - 52)
            /\ integer_number (- z)
              = S754_finite true
                  (Z.to_pos (z * 2 ^ (52 - Z.log2 z))) (Z.log2 z - 52))
    as Hcanon.
  { intros z Hz.
    rewrite (integer_number_canonical z), (integer_number_canonical (- z))
      by lia.
    replace (- z <? 0)%Z with true by (symmetry; apply Z.ltb_lt; lia).
    replace (z <? 0)%Z with false by (symmetry; apply Z.ltb_ge; lia).
    replace (Z.abs (- z)) with z by lia.
    replace (Z.abs z) with z by lia. now split. }
  destruct (Z.eq_dec x 0) as [-> | Hx0], (Z.eq_dec y 0) as [-> | Hy0].
  - destruct op; try congruence; reflexivity.
  - destruct (Hcanon y) as [Cy Cny]; [lia |].
    destruct op; try congruence; cbn [integer_result calculate].
    + rewrite Z.add_0_l, integer_number_zero, Cy. reflexivity.
    + rewrite Z.sub_0_l, integer_number_zero, Cy, Cny. reflexivity.
    + rewrite Z.mul_0_l, integer_number_zero, Cy. reflexivity.
  - destruct (Hcanon x) as [Cx _]; [lia |].
    destruct op; try congruence; cbn [integer_result calculate].
    + rewrite Z.add_0_r, integer_number_zero, Cx. reflexivity.
    + rewrite Z.sub_0_r, integer_number_zero, Cx. reflexivity.
    + rewrite Z.mul_0_r, integer_number_zero, Cx. reflexivity.
  - destruct op; try congruence; cbn [integer_result calculate] in *.
    + apply add_integers; lia.
    + apply sub_integers; lia.
    + apply mul_integers; lia.
Qed.

Lemma ToString_negative (m : positive) (e : Z) :
  JS.ToString (S754_finite true m e)
  = "-" ++ JS.ToString (S754_finite false m e).
Proof.
  unfold JS.ToString. destruct (JS.shortest m e). reflexivity.
Qed.

(** The string of the number of an integer below 10^15 in absolute value
    is the integer in decimal digits. *)
Lemma ToString_integer_number (z : Z) :
  (Z.abs z < 10 ^ 15)%Z ->
  JS.ToString (integer_number z) = integer_string z.
Proof.
  intros Hz. pose proof pow15_below_pow53'. unfold integer_string.
  destruct (Z.eq_dec z 0) as [-> | Hz0]; [reflexivity |].
  rewrite integer_number_canonical by lia.
  destruct (Z.ltb_spec z 0) as [Hneg | Hpos].
  - rewrite ToString_negative.
    rewrite <- (of_ratio_canonical false (Z.abs z)) by lia.
    rewrite ToString_integer by lia. reflexivity.
  - rewrite <- (of_ratio_canonical false (Z.abs z)) by lia.
    rewrite ToString_integer by lia. reflexivity.
Qed.

Lemma not_Infinity_by_count (s : string) :
  JS.count "I" s = 0 -> JS.includes s "Infinity" = false.
Proof.
  intros H. destruct (JS.includes s "Infinity") eqn:E; [| reflexivity].
  apply (count_includes "I") in E. rewrite H in E. cbn in E. lia.
Qed.

Lemma parseFloat_negative_digits (d : string) (n : Z) :
  all_digits d = true -> d <> EmptyString ->
  JS.scan_digits 0 0 d = (n, String.length d, EmptyString) ->
  JS.parseFloat (String "-" d) = JS.of_decimal true n 0.
Proof.
  intros Hall Hne Hscan. destruct d as [| c rest]; [congruence |].
  cbn [all_digits] in Hall. apply andb_true_iff in Hall.
  destruct Hall as [Hc _].
  destruct c as [[] [] [] [] [] [] [] []]; try discriminate Hc;
    unfold JS.parseFloat;
    match goal with
    | |- context [JS.trimStart ?s] => change (JS.trimStart s) with s
    end; cbv iota beta;
    match goal with
    | |- context [String.prefix "Infinity" ?s] =>
        change (String.prefix "Infinity" s) with false
    end; cbv iota; rewrite Hscan; reflexivity.
Qed.

Lemma toLocaleString_negative_integer (N : Z) :
  (0 < N < 10 ^ 15)%Z ->
  JS.toLocaleString (JS.of_decimal true N 0)
  = "-" ++ JS.group3 (JS.decimal N).
Proof.
  intros HN. pose proof pow15_below_pow53 as H53.
  pose proof (integer_number_canonical (- N)) as C.
  unfold integer_number in C.
  replace (- N <? 0)%Z with true in C by (symmetry; apply Z.ltb_lt; lia).
  replace (Z.abs (- N)) with N in C by lia.
  rewrite C by lia.
  apply (toLocaleString_finite_integer true N); [exact HN |].
  apply of_ratio_canonical; lia.
Qed.

(** The main line of an integer below 10^15 in absolute value, written in
    decimal digits: the integer with a comma between groups of three
    digits. *)
Lemma main_line_of_integer (z : Z) :
  (Z.abs z < 10 ^ 15)%Z ->
  formatDisplayValue (integer_string z) = grouped_integer z.
Proof.
  intros Hz. pose proof pow15_below_pow53'.
  unfold integer_string, grouped_integer.
  assert (1 <= String.length (JS.decimal (Z.abs z)) <= 15) as Hlen.
  { destruct (Z.eq_dec z 0) as [-> | Hz0]; [cbn; lia |].
    destruct (integer_digits_bounds (Z.abs z)) as [HL _]; lia. }
  destruct (Z.ltb_spec z 0) as [Hneg | Hpos]; cbn [JS.minus_sign append].
  - set (d := JS.decimal (Z.abs z)) in *.
    pose proof (all_digits_decimal (Z.abs z)) as Hall. fold d in Hall.
    unfold formatDisplayValue.
    rewrite not_Infinity_by_count
      by (cbn [JS.count]; rewrite (count_not_digit "I" d eq_refl Hall);
          reflexivity).
    rewrite (split_without_separator "." (String "-" d))
      by (cbn [JS.count]; rewrite (count_dot_digits d Hall); reflexivity).
    rewrite (parseFloat_negative_digits d (Z.abs z) Hall).
    + now rewrite toLocaleString_negative_integer by lia.
    + intros E. rewrite E in Hlen. cbn in Hlen. lia.
    + unfold d. apply scan_decimal. lia.
  - rewrite main_line_of_digits;
      [| apply all_digits_decimal | exact Hlen].
    now rewrite decimal_canonical.
Qed.

(** [parseFloat] of the operand left by typed digits. *)
Lemma parseFloat_typed_operand (typed : string) :
  all_digits typed = true ->
  JS.parseFloat (typed_operand typed)
  = integer_number (value_of_digits (typed_operand typed)) /\
  (0 <= value_of_digits (typed_operand typed) < 10 ^ 15)%Z.
Proof.
  intros Hall.
  pose proof (all_digits_typed_operand typed Hall) as Hd.
  destruct (typed_operand_canonical typed) as [Hlen _].
  destruct (decimal_of_scanned _ Hd) as [n [Hscan [Hn _]]].
  assert (value_of_digits (typed_operand typed) = n) as ->
    by (unfold value_of_digits; now rewrite Hscan).
  assert (n < 10 ^ 15)%Z as Hlt.
  { pose proof (scan_digits_bound (typed_operand typed) 0 0 (Z.le_refl 0))
      as B.
    rewrite Hscan in B. cbn [fst] in B.
    assert (10 ^ Z.of_nat (String.length (typed_operand typed)) <= 10 ^ 15)%Z
      by (apply Z.pow_le_mono_r; lia).
    lia. }
  split; [| lia].
  rewrite (parseFloat_digits _ n Hd); [| | exact Hscan].
  - unfold integer_number.
    replace (n <? 0)%Z with false by (symmetry; apply Z.ltb_ge; lia).
    now rewrite Z.abs_eq by lia.
  - intros E. rewrite E in Hlen. cbn in Hlen. lia.
Qed.

(** The state after a whole calculation typed into the initial state. *)
Lemma typed_calculation (a b : string) (op : Operation) :
  all_digits a = true -> all_digits b = true -> b <> EmptyString ->
  clicks (labels_of a ++ symbol op :: labels_of b ++ ["="])%list initialState
  = showing
      (JS.ToString
         (calculate (JS.parseFloat (typed_operand a))
                    (JS.parseFloat (typed_operand b)) op)).
Proof.
  intros Ha Hb Hne.
  rewrite clicks_append, clicks_cons, clicks_append.
  change initialState with (showing "0").
  rewrite (typing_from_zero a Ha), click_operator.
  fold (typed_operand a).
  rewrite (awaited_operand_typed b);
    [reflexivity | reflexivity | exact Hb | exact Hne].
Qed.

(** X19.  [calculate] does not round integers: for two integers from 0 to
    2^53 and a sum, a difference or a product that stays below 2^53 in
    absolute value, the result is the number of the exact integer result
    (negative for a difference below zero). *)
Theorem calculate_is_exact_on_integers (op : Operation) (x y : Z) :
  (0 <= x < 2 ^ 53)%Z -> (0 <= y < 2 ^ 53)%Z ->
  (Z.abs (integer_result op x y) < 2 ^ 53)%Z ->
  op <> Divide ->
  calculate (integer_number x) (integer_number y) op
  = integer_number (integer_result op x y).
Proof.
  intros Hx Hy HR Hop.
  assert (forall z : Z, (0 < z < 2 ^ 53)%Z ->
            integer_number z
            = S754_finite false
                (Z.to_pos (z * 2 ^ (52 - Z.log2 z))) (Z.log2 z - 52)
            /\ integer_number (- z)
              = S754_finite true
                  (Z.to_pos (z * 2 ^ (52 - Z.log2 z))) (Z.log2 z - 52))
    as Hcanon.
  { intros z Hz.
    rewrite (integer_number_canonical z), (integer_number_canonical (- z))
      by lia.
    replace (- z <? 0)%Z with true by (symmetry; apply Z.ltb_lt; lia).
    replace (z <? 0)%Z with false by (symmetry; apply Z.ltb_ge; lia).
    replace (Z.abs (- z)) with z by lia.
    replace (Z.abs z) with z by lia. now split. }
  destruct (Z.eq_dec x 0) as [-> | Hx0], (Z.eq_dec y 0) as [-> | Hy0].
  - destruct op; try congruence; reflexivity.
  - destruct (Hcanon y) as [Cy Cny]; [lia |].
    destruct op; try congruence; cbn [integer_result calculate].
    + rewrite Z.add_0_l, integer_number_zero, Cy. reflexivity.
    + rewrite Z.sub_0_l, integer_number_zero, Cy, Cny. reflexivity.
    + rewrite Z.mul_0_l, integer_number_zero, Cy. reflexivity.
  - destruct (Hcanon x) as [Cx _]; [lia |].
    destruct op; try congruence; cbn [integer_result calculate].
    + rewrite Z.add_0_r, integer_number_zero, Cx. reflexivity.
    + rewrite Z.sub_0_r, integer_number_zero, Cx. reflexivity.
    + rewrite Z.mul_0_r, integer_number_zero, Cx. reflexivity.
  - destruct op; try congruence; cbn [integer_result calculate] in *.
    + apply add_integers; lia.
    + apply sub_integers; lia.
    + apply mul_integers; lia.
Qed.

Lemma calculate_is_exact_on_integers_witness :
  (0 <= 4503599627370496 < 2 ^ 53)%Z /\
  (0 <= 4503599627370495 < 2 ^ 53)%Z /\
  calculate (JS.parseFloat "4503599627370496")
    (JS.parseFloat "4503599627370495") Plus
  = JS.parseFloat "9007199254740991".
Proof.
  split; [lia |]. split; [lia |].
  apply (calculate_is_exact_on_integers Plus
           4503599627370496 4503599627370495);
    solve [lia | discriminate | vm_compute; reflexivity].
Defined.

(** X20.  Integer arithmetic on the keypad is exact: typing the digits
    [a], one of +, - and ×, the non-empty digits [b] and = from the initial
    state shows the exact integer result of the two operands as displayed,
    whenever it stays below 10^15 in absolute value; the display holds its
    decimal digits (with a minus sign when it is negative) and the main line
    shows them with a comma between groups of three digits. *)
Theorem integer_arithmetic_is_exact (a b : string) (op : Operation) :
  all_digits a = true ->
  all_digits b = true ->
  b <> EmptyString ->
  op <> Divide ->
  (Z.abs (integer_result op (value_of_digits (typed_operand a))
                            (value_of_digits (typed_operand b)))
   < 10 ^ 15)%Z ->
  clicks (labels_of a ++ symbol op :: labels_of b ++ ["="])%list initialState
  = showing
      (integer_string
         (integer_result op (value_of_digits (typed_operand a))
                            (value_of_digits (typed_operand b)))) /\
  render
    (clicks (labels_of a ++ symbol op :: labels_of b ++ ["="])%list
       initialState)
  = (grouped_integer
       (integer_result op (value_of_digits (typed_operand a))
                          (value_of_digits (typed_operand b))),
     EmptyString).
Proof.
  intros Ha Hb Hne Hop HR. pose proof pow15_below_pow53'.
  destruct (parseFloat_typed_operand a Ha) as [Pa Ra].
  destruct (parseFloat_typed_operand b Hb) as [Pb Rb].
  rewrite (typed_calculation a b op Ha Hb Hne), Pa, Pb.
  rewrite calculate_integers by (lia || exact Hop).
  rewrite ToString_integer_number by exact HR.
  split; [reflexivity |].
  unfold render. cbn [displayValue history showing].
  now rewrite main_line_of_integer by exact HR.
Qed.

Lemma integer_arithmetic_is_exact_witness :
  all_digits "1234" = true /\
  all_digits "5678" = true /\
  render (clicks ["1"; "2"; "3"; "4"; "-"; "5"; "6"; "7"; "8"; "="]
            initialState)
  = ("-4,444", EmptyString).
Proof.
  split; [reflexivity |]. split; [reflexivity |].
  destruct (integer_arithmetic_is_exact "1234" "5678" Minus
              eq_refl eq_refl) as [_ H];
    [discriminate | discriminate | vm_compute; reflexivity | exact H].
Defined.

(** X21.  Chained integer arithmetic is exact and goes from left to right:
    typing [a], an operator, [b], a second operator, [c] and = shows the
    second operation applied to the result of the first and to [c], with no
    precedence between the operators, whenever the first result is not
    negative and both results stay below 10^15. *)
Theorem chained_integer_arithmetic_is_exact
  (a b c : string) (op1 op2 : Operation) :
  all_digits a = true -> all_digits b = true -> all_digits c = true ->
  b <> EmptyString -> c <> EmptyString ->
  op1 <> Divide -> op2 <> Divide ->
  (0 <= integer_result op1 (value_of_digits (typed_operand a))
                           (value_of_digits (typed_operand b))
   < 10 ^ 15)%Z ->
  (Z.abs (integer_result op2
            (integer_result op1 (value_of_digits (typed_operand a))
                                (value_of_digits (typed_operand b)))
            (value_of_digits (typed_operand c)))
   < 10 ^ 15)%Z ->
  render
    (clicks (labels_of a ++ symbol op1 :: labels_of b
             ++ symbol op2 :: labels_of c ++ ["="])%list initialState)
  = (grouped_integer
       (integer_result op2
          (integer_result op1 (value_of_digits (typed_operand a))
                              (value_of_digits (typed_operand b)))
          (value_of_digits (typed_operand c))),
     EmptyString).
Proof.
  intros Ha Hb Hc Hnb Hnc Hop1 Hop2 HR1 HR2. pose proof pow15_below_pow53'.
  destruct (parseFloat_typed_operand a Ha) as [Pa Ra].
  destruct (parseFloat_typed_operand b Hb) as [Pb Rb].
  destruct (parseFloat_typed_operand c Hc) as [Pc Rc].
  rewrite clicks_append, clicks_cons, clicks_append, clicks_cons,
    clicks_append.
  change initialState with (showing "0").
  rewrite (typing_from_zero a Ha), !click_operator.
  fold (typed_operand a).
  rewrite (awaited_operand_typed b);
    [| reflexivity | exact Hb | exact Hnb].
  assert (performOperation op2
            (entering (performOperation op1 (showing (typed_operand a)))
               (typed_operand b))
          = let result :=
              calculate (JS.parseFloat (typed_operand a))
                (JS.parseFloat (typed_operand b)) op1 in
            {| displayValue := JS.ToString result;
               previousValue := Some result;
               operation := Some op2;
               waitingForOperand := true;
               history :=
                 formatDisplayValue (JS.ToString result) ++ " "
                 ++ symbol op2 |}) as -> by reflexivity.
  cbv zeta. rewrite Pa, Pb.
  rewrite calculate_integers by (lia || exact Hop1).
  rewrite (awaited_operand_typed c);
    [| reflexivity | exact Hc | exact Hnc].
  cbn [clicks fold_left]. rewrite click_equals.
  unfold performEquals, render.
  cbn [operation previousValue displayValue history entering initialState].
  rewrite Pc.
  rewrite calculate_integers by (lia || exact Hop2).
  rewrite ToString_integer_number by exact HR2.
  now rewrite main_line_of_integer by exact HR2.
Qed.

Lemma chained_integer_arithmetic_is_exact_witness :
  all_digits "5" = true /\ all_digits "3" = true /\ all_digits "2" = true /\
  render (clicks ["5"; "+"; "3"; "×"; "2"; "="] initialState)
  = ("16", EmptyString).
Proof.
  split; [reflexivity |]. split; [reflexivity |]. split; [reflexivity |].
  apply (chained_integer_arithmetic_is_exact "5" "3" "2" Plus Times
           eq_refl eq_refl eq_refl);
    solve [discriminate | vm_compute; split; [discriminate | reflexivity]
          | vm_compute; reflexivity].
Defined.

(** X22.  Dividing by a typed zero shows the error marker: typing the
    digits [a], ÷, a non-empty sequence of digits whose value is zero and =
    from the initial state leaves "Infinity" on the display, shown as
    "Error", whatever [a] is. *)
Theorem typed_division_by_zero_shows_the_error_marker (a b : string) :
  all_digits a = true ->
  all_digits b = true ->
  b <> EmptyString ->
  value_of_digits (typed_operand b) = 0%Z ->
  clicks (labels_of a ++ symbol Divide :: labels_of b ++ ["="])%list
    initialState
  = showing "Infinity" /\
  render
    (clicks (labels_of a ++ symbol Divide :: labels_of b ++ ["="])%list
       initialState)
  = ("Error", EmptyString).
Proof.
  intros Ha Hb Hne Hzero.
  destruct (parseFloat_typed_operand b Hb) as [Pb _].
  rewrite (typed_calculation a b Divide Ha Hb Hne), Pb, Hzero.
  split; reflexivity.
Qed.

Lemma typed_division_by_zero_shows_the_error_marker_witness :
  all_digits "9" = true /\
  all_digits "00" = true /\
  value_of_digits (typed_operand "00") = 0%Z /\
  render (clicks ["9"; "÷"; "0"; "0"; "="] initialState)
  = ("Error", EmptyString).
Proof.
  split; [reflexivity |]. split; [reflexivity |]. split; [reflexivity |].
  destruct (typed_division_by_zero_shows_the_error_marker "9" "00"
              eq_refl eq_refl) as [_ H];
    [discriminate | reflexivity | exact H].
Defined.
